(** * python-metrohash: the Cython wrapper [src/metrohash.pyx]

    A shallow embedding of the wrapper around the MetroHash primitive:
    the one-shot functions [metrohash64] and [metrohash128] and the
    incremental hashers [MetroHash64] and [MetroHash128].

    The wrapper itself is embedded from [metrohash.pyx].  What it imports
    from [metro.h] (the [cdef extern] block) is an interface, [Metro];
    the wrapper is generic in it. *)

From Stdlib Require Import ZArith List String Lia.
From Stdlib.Strings Require Import Byte.
From stdpp Require Import gmap.
Import ListNotations.

Local Open Scope string_scope.
Local Open Scope list_scope.
Local Open Scope Z_scope.

(** ** Machine integers and bytes *)

(** [ctypedef unsigned char uint8_t] *)
Definition uint8 : Type := byte.

Definition uint8_val (b : uint8) : Z := Z.of_N (Byte.to_N b).

Definition to_uint8 (z : Z) : uint8 :=
  match Byte.of_N (Z.to_N (z mod 256)) with
  | Some b => b
  | None => x00
  end.

(** [ctypedef unsigned long long int uint64_t]: the values of the type. *)
Definition is_uint64 (z : Z) : Prop := 0 <= z < 2 ^ 64.

(** [std::pair<uint64, uint64>], the [uint128] of [metro.h]. *)
Definition uint128 : Type := (Z * Z)%type.
Definition first (p : uint128) : Z := fst p.
Definition second (p : uint128) : Z := snd p.

(** ** Exceptions and results *)

Inductive pyexc : Type :=
| TypeError (msg : string)
| ValueError (msg : string)
| BufferError (msg : string)
| OverflowError.

Inductive result (A : Type) : Type :=
| Ok (a : A)
| Raise (e : pyexc).
Arguments Ok {A} a.
Arguments Raise {A} e.

(** ** Python values

    A type object, as far as [str] shows it: whether it is a class
    defined in Python (a heap type), its module and its name. *)
Record pytype : Type :=
  { tp_heaptype : bool; tp_module : string; tp_name : string }.

Definition builtin_type (name : string) : pytype :=
  {| tp_heaptype := false; tp_module := "__builtin__"; tp_name := name |}.

(** The values a caller can pass as [data].  [PyUnicode] is a text string
    (a sequence of code points), [PyString] a byte string, [PyBuffer] any
    other object whose type implements the buffer protocol and exports
    its memory as one contiguous run of bytes (bytearray, memoryview,
    ...).  [PyNoSimpleBuffer] is an object whose type implements the
    buffer protocol as well, but which refuses the [PyBUF_SIMPLE] request
    (its memory is not contiguous, say): [err] is the exception its
    exporter raises.  The rest are objects without the buffer protocol;
    [PyInstance] is any other such object, of the type given. *)
Inductive pyobject : Type :=
| PyUnicode (chars : list Z)
| PyString (ob_sval : list uint8)
| PyBuffer (tp_name : string) (mem : list uint8)
| PyNoSimpleBuffer (ob_type : pytype) (err : pyexc)
| PyInt (ob_ival : Z)
| PyNone
| PyList (ob_item : list pyobject)
| PyInstance (ob_type : pytype).

(** [type(value)]. *)
Definition Py_TYPE (value : pyobject) : pytype :=
  match value with
  | PyUnicode _ => builtin_type "unicode"
  | PyString _ => builtin_type "str"
  | PyBuffer tp _ => builtin_type tp
  | PyNoSimpleBuffer tp _ => tp
  | PyInt _ => builtin_type "int"
  | PyNone => builtin_type "NoneType"
  | PyList _ => builtin_type "list"
  | PyInstance tp => tp
  end.

Definition PyUnicode_Check (o : pyobject) : bool :=
  match o with PyUnicode _ => true | _ => false end.

Definition PyString_Check (o : pyobject) : bool :=
  match o with PyString _ => true | _ => false end.

(** Whether the type implements the buffer protocol.  A byte string does
    as well: the order of the tests in the wrapper decides which branch it
    takes. *)
Definition PyObject_CheckBuffer (o : pyobject) : bool :=
  match o with
  | PyString _ | PyBuffer _ _ | PyNoSimpleBuffer _ _ => true
  | _ => false
  end.

(** [str] of a type object: [<type 'name'>] for a type defined in C,
    [<class 'module.name'>] for a class defined in Python; the module is
    left out when it is [__builtin__]. *)
Definition py_str_type (tp : pytype) : string :=
  String.append "<"
  (String.append (if tp_heaptype tp then "class" else "type")
  (String.append " '"
  (String.append
     (if String.eqb (tp_module tp) "__builtin__" then tp_name tp
      else String.append (tp_module tp) (String.append "." (tp_name tp)))
     "'>"))).

(** [PyObject_GetBuffer(o, &buf, PyBUF_SIMPLE)]: the bytes the view
    exposes ([buf.buf] with [buf.len] their number), or the exception
    raised: that of the exporter when it refuses the request, a
    [TypeError] when the type has no buffer protocol. *)
Definition PyObject_GetBuffer (o : pyobject) : result (list uint8) :=
  match o with
  | PyString s => Ok s
  | PyBuffer _ mem => Ok mem
  | PyNoSimpleBuffer _ err => Raise err
  | _ =>
      Raise (TypeError
        (String.append "'"
        (String.append (tp_name (Py_TYPE o))
           "' does not have the buffer interface")))
  end.

Definition PyString_AS_STRING (o : pyobject) : list uint8 :=
  match o with PyString s => s | _ => [] end.

Definition PyString_GET_SIZE (o : pyobject) : Z :=
  match o with PyString s => Z.of_nat (length s) | _ => 0 end.

Definition buf_len (b : list uint8) : Z := Z.of_nat (length b).

(** *** UTF-8

    [PyUnicode_AsUTF8String]: the encoding of one code point, and of a
    string. *)
Definition utf8_char (c : Z) : list uint8 :=
  if c <? 0x80 then
    [to_uint8 c]
  else if c <? 0x800 then
    [to_uint8 (Z.lor 0xC0 (Z.shiftr c 6));
     to_uint8 (Z.lor 0x80 (Z.land c 0x3F))]
  else if c <? 0x10000 then
    [to_uint8 (Z.lor 0xE0 (Z.shiftr c 12));
     to_uint8 (Z.lor 0x80 (Z.land (Z.shiftr c 6) 0x3F));
     to_uint8 (Z.lor 0x80 (Z.land c 0x3F))]
  else
    [to_uint8 (Z.lor 0xF0 (Z.shiftr c 18));
     to_uint8 (Z.lor 0x80 (Z.land (Z.shiftr c 12) 0x3F));
     to_uint8 (Z.lor 0x80 (Z.land (Z.shiftr c 6) 0x3F));
     to_uint8 (Z.lor 0x80 (Z.land c 0x3F))].

Definition utf8_encode (chars : list Z) : list uint8 :=
  flat_map utf8_char chars.

(** The new byte string object holding the encoding of a text string. *)
Definition PyUnicode_AsUTF8String (o : pyobject) : pyobject :=
  match o with
  | PyUnicode chars => PyString (utf8_encode chars)
  | _ => PyNone
  end.

(** ** The type error of the wrapper *)

(** [str] of a list of plain strings, as [%s] formats it. *)
Definition py_repr (s : string) : string :=
  String.append "'" (String.append s "'").

Definition py_str_list (l : list string) : string :=
  String.append "[" (String.append (String.concat ", " (map py_repr l)) "]").

Definition _type_error (argname : string) (expected : list string)
    (value : pyobject) : pyexc :=
  TypeError
    (String.append "Argument '"
    (String.append argname
    (String.append "' has incorrect type (expected "
    (String.append (py_str_list expected)
    (String.append ", got "
    (String.append (py_str_type (Py_TYPE value)) ")")))))).

(** ** The interface of [metro.h]

    The [cdef extern from "metro.h"] block.  A buffer argument
    [(const uint8* buf, uint64 len)] is the memory at [buf] and the length;
    a method of a C++ object takes the object and returns it.  [Finalize]
    writes its result array and is not a [const] method, so it returns
    the array and the object.  The last fields are the return types. *)
Class Metro : Type := {
  c_metrohash64 : list uint8 -> Z -> Z -> Z;
  c_bytes2int64 : list uint8 -> Z;
  c_bytes2int128 : list uint8 -> uint128;
  c_metrohash128 : list uint8 -> Z -> Z -> uint128;

  CCMetroHash64 : Type;
  CCMetroHash64_new : Z -> CCMetroHash64;
  CCMetroHash64_Initialize : Z -> CCMetroHash64 -> CCMetroHash64;
  CCMetroHash64_Update : list uint8 -> Z -> CCMetroHash64 -> CCMetroHash64;
  CCMetroHash64_Finalize : CCMetroHash64 -> list uint8 * CCMetroHash64;

  CCMetroHash128 : Type;
  CCMetroHash128_new : Z -> CCMetroHash128;
  CCMetroHash128_Initialize : Z -> CCMetroHash128 -> CCMetroHash128;
  CCMetroHash128_Update : list uint8 -> Z -> CCMetroHash128 -> CCMetroHash128;
  CCMetroHash128_Finalize : CCMetroHash128 -> list uint8 * CCMetroHash128;

  c_metrohash64_uint64 :
    forall buf len seed, is_uint64 (c_metrohash64 buf len seed);
  c_bytes2int64_uint64 :
    forall array, is_uint64 (c_bytes2int64 array);
  c_bytes2int128_uint64 :
    forall array,
      is_uint64 (first (c_bytes2int128 array)) /\
      is_uint64 (second (c_bytes2int128 array));
  c_metrohash128_uint64 :
    forall buf len seed,
      is_uint64 (first (c_metrohash128 buf len seed)) /\
      is_uint64 (second (c_metrohash128 buf len seed))
}.

(** A [uint64 seed=0ULL] parameter of a body: the argument, or the
    default.  The seed reaches the body as a C value of type [uint64];
    [seed_from_python] below is the unpacking of the Python argument,
    done before the body runs. *)
Definition seed_arg (seed : option Z) : Z :=
  match seed with
  | Some s => s
  | None => 0
  end.

(** The conversion of a Python integer to [uint64] for a parameter of
    that type: outside the range of the type it raises [OverflowError]. *)
Definition seed_in_range (seed : option Z) : bool :=
  match seed with
  | Some z => (0 <=? z) && (z <? 2 ^ 64)
  | None => true
  end.

Definition seed_from_python (seed : option Z) : result (option Z) :=
  if seed_in_range seed then Ok seed else Raise OverflowError.

(** ** Methods

    A method runs on its object and may raise: it returns its outcome and
    the object as the call leaves it.  An exception ends a sequence of
    calls, and the object stays as the failing call left it. *)

Definition method (S A : Type) : Type := S -> result A * S.

Definition ret {S A : Type} (a : A) : method S A := fun self => (Ok a, self).

Definition raise {S A : Type} (e : pyexc) : method S A :=
  fun self => (Raise e, self).

Definition bind {S A B : Type} (c : method S A) (k : A -> method S B)
    : method S B :=
  fun self =>
    match c self with
    | (Ok a, self') => k a self'
    | (Raise e, self') => (Raise e, self')
    end.

Definition modify {S : Type} (f : S -> S) : method S unit :=
  fun self => (Ok tt, f self).

Definition seq {S A B : Type} (c : method S A) (k : method S B) : method S B :=
  bind c (fun _ => k).

Notation "c >>= k" := (bind c k) (at level 50, left associativity).
Notation "c >> k" := (seq c k) (at level 50, left associativity).

(** The calls [f x1; f x2; ...] in order. *)
Fixpoint for_each {S A : Type} (f : A -> method S unit) (l : list A)
    : method S unit :=
  match l with
  | [] => ret tt
  | x :: l' => f x >> for_each f l'
  end.

(** The value a sequence of calls returns, and the object it leaves. *)
Definition returns {S A : Type} (c : method S A) (self : S) : result A :=
  fst (c self).

Definition leaves {S A : Type} (c : method S A) (self : S) : S :=
  snd (c self).

(** ** The wrapper *)
Section Wrapper.
Context {M : Metro}.

(** *** One-shot functions *)

Definition metrohash64 (data : pyobject) (seed : option Z) : result Z :=
  let seed := seed_arg seed in
  if PyUnicode_Check data then
    let obj := PyUnicode_AsUTF8String data in
    match PyObject_GetBuffer obj with
    | Ok buf =>
        let result := c_metrohash64 buf (buf_len buf) seed in
        Ok result
    | Raise e => Raise e
    end
  else if PyString_Check data then
    let result :=
      c_metrohash64 (PyString_AS_STRING data) (PyString_GET_SIZE data) seed in
    Ok result
  else if PyObject_CheckBuffer data then
    match PyObject_GetBuffer data with
    | Ok buf =>
        let result := c_metrohash64 buf (buf_len buf) seed in
        Ok result
    | Raise e => Raise e
    end
  else
    Raise (_type_error "data" ["basestring"; "buffer"] data).

Definition metrohash128 (data : pyobject) (seed : option Z) : result Z :=
  let seed := seed_arg seed in
  if PyUnicode_Check data then
    let obj := PyUnicode_AsUTF8String data in
    match PyObject_GetBuffer obj with
    | Ok buf =>
        let result := c_metrohash128 buf (buf_len buf) seed in
        let final := 0x10000000000000000 * first result + second result in
        Ok final
    | Raise e => Raise e
    end
  else if PyString_Check data then
    let result :=
      c_metrohash128 (PyString_AS_STRING data) (PyString_GET_SIZE data) seed in
    let final := 0x10000000000000000 * first result + second result in
    Ok final
  else if PyObject_CheckBuffer data then
    match PyObject_GetBuffer data with
    | Ok buf =>
        let result := c_metrohash128 buf (buf_len buf) seed in
        let final := 0x10000000000000000 * first result + second result in
        Ok final
    | Raise e => Raise e
    end
  else
    Raise (_type_error "data" ["basestring"; "buffer"] data).

(** The one-shot functions as called from Python: the seed is unpacked,
    then the body runs. *)
Definition py_metrohash64 (data : pyobject) (seed : option Z) : result Z :=
  match seed_from_python seed with
  | Ok seed => metrohash64 data seed
  | Raise e => Raise e
  end.

Definition py_metrohash128 (data : pyobject) (seed : option Z) : result Z :=
  match seed_from_python seed with
  | Ok seed => metrohash128 data seed
  | Raise e => Raise e
  end.

(** *** Incremental hashers

    A hasher owns one instance of the primitive, [_m], allocated by
    [__cinit__]. *)

Record MetroHash64 : Type := { _m : CCMetroHash64 }.

Definition MetroHash64___cinit__ (seed : option Z) : MetroHash64 :=
  {| _m := CCMetroHash64_new (seed_arg seed) |}.

Definition MetroHash64_initialize (seed : option Z) : method MetroHash64 unit :=
  modify (fun self =>
    {| _m := CCMetroHash64_Initialize (seed_arg seed) (_m self) |}).

Definition MetroHash64_update (data : pyobject) : method MetroHash64 unit :=
  if PyUnicode_Check data then
    let obj := PyUnicode_AsUTF8String data in
    match PyObject_GetBuffer obj with
    | Ok buf =>
        modify (fun self =>
          {| _m := CCMetroHash64_Update buf (buf_len buf) (_m self) |})
    | Raise e => raise e
    end
  else if PyString_Check data then
    modify (fun self =>
      {| _m := CCMetroHash64_Update (PyString_AS_STRING data)
                 (PyString_GET_SIZE data) (_m self) |})
  else if PyObject_CheckBuffer data then
    match PyObject_GetBuffer data with
    | Ok buf =>
        modify (fun self =>
          {| _m := CCMetroHash64_Update buf (buf_len buf) (_m self) |})
    | Raise e => raise e
    end
  else
    raise (_type_error "data" ["basestring"; "buffer"] data).

Definition MetroHash64_intdigest : method MetroHash64 Z :=
  fun self =>
    let (buf, m) := CCMetroHash64_Finalize (_m self) in
    (Ok (c_bytes2int64 buf), {| _m := m |}).

Record MetroHash128 : Type := { _m128 : CCMetroHash128 }.

Definition MetroHash128___cinit__ (seed : option Z) : MetroHash128 :=
  {| _m128 := CCMetroHash128_new (seed_arg seed) |}.

Definition MetroHash128_initialize (seed : option Z)
    : method MetroHash128 unit :=
  modify (fun self =>
    {| _m128 := CCMetroHash128_Initialize (seed_arg seed) (_m128 self) |}).

Definition MetroHash128_update (data : pyobject) : method MetroHash128 unit :=
  if PyUnicode_Check data then
    let obj := PyUnicode_AsUTF8String data in
    match PyObject_GetBuffer obj with
    | Ok buf =>
        modify (fun self =>
          {| _m128 := CCMetroHash128_Update buf (buf_len buf) (_m128 self) |})
    | Raise e => raise e
    end
  else if PyString_Check data then
    modify (fun self =>
      {| _m128 := CCMetroHash128_Update (PyString_AS_STRING data)
                    (PyString_GET_SIZE data) (_m128 self) |})
  else if PyObject_CheckBuffer data then
    match PyObject_GetBuffer data with
    | Ok buf =>
        modify (fun self =>
          {| _m128 := CCMetroHash128_Update buf (buf_len buf) (_m128 self) |})
    | Raise e => raise e
    end
  else
    raise (_type_error "data" ["basestring"; "buffer"] data).

Definition MetroHash128_intdigest : method MetroHash128 Z :=
  fun self =>
    let (buf, m) := CCMetroHash128_Finalize (_m128 self) in
    let result := c_bytes2int128 buf in
    (Ok (0x10000000000000000 * first result + second result),
     {| _m128 := m |}).



End Wrapper.

(** ** The mixing primitive

    [metro.h] and the C++ classes behind it are not part of the wrapper;
    the specification describes the primitive by its protocol only
    (initialize, update, finalize) and leaves the mixing arithmetic open.
    The model below follows it: the arithmetic is a parameter, [mix64] and
    [mix128], giving the machine words of the digest for a seed and an
    input. *)

(** Little-endian layout of a word in [n] bytes, and back. *)
Fixpoint le_bytes (n : nat) (z : Z) : list uint8 :=
  match n with
  | O => []
  | S k => to_uint8 z :: le_bytes k (z / 256)
  end.

Fixpoint le_int (l : list uint8) : Z :=
  match l with
  | [] => 0
  | b :: l' => uint8_val b + 256 * le_int l'
  end.

Module Primitive.
Section Mixing.
Variable mix64 : Z -> list uint8 -> Z.
Variable mix128 : Z -> list uint8 -> Z * Z.

(** Modelled from the spec: the hash state of the mixing primitive (the
    classes [MetroHash64] and [MetroHash128] of [metro.h], absent from the
    wrapper).  An accumulator is fixed by the seed it was initialized with
    and the bytes fed to it since, in call order. *)
Record accumulator : Type := { acc_seed : Z; acc_input : list uint8 }.

(** Modelled from the spec: [Initialize] of the absent primitive, which
    resets to a fresh accumulator with the seed given and discards the
    bytes accumulated before. *)
Definition Initialize (seed : Z) (a : accumulator) : accumulator :=
  {| acc_seed := seed; acc_input := [] |}.

(** Modelled from the spec: the constructor of the absent primitive;
    construction implicitly calls initialize. *)
Definition construct (seed : Z) : accumulator :=
  {| acc_seed := seed; acc_input := [] |}.

(** Modelled from the spec: [Update] of the absent primitive feeds the
    [len] bytes at [buf] to the running state. *)
Definition Update (buf : list uint8) (len : Z) (a : accumulator)
    : accumulator :=
  {| acc_seed := acc_seed a;
     acc_input := acc_input a ++ firstn (Z.to_nat len) buf |}.

(** Modelled from the spec: [Finalize] of the absent 64-bit primitive reads
    out the 8-byte digest, one little-endian word, and does not reset the
    accumulator. *)
Definition Finalize64 (a : accumulator) : list uint8 * accumulator :=
  (le_bytes 8 (mix64 (acc_seed a) (acc_input a)), a).

(** Modelled from the spec: [Finalize] of the absent 128-bit primitive
    reads out the 16-byte digest, two little-endian words. *)
Definition Finalize128 (a : accumulator) : list uint8 * accumulator :=
  let w := mix128 (acc_seed a) (acc_input a) in
  (le_bytes 8 (fst w) ++ le_bytes 8 (snd w), a).

(** Modelled from the spec: [bytes2int64] of the absent [metro.h], the
    8-byte digest as one unsigned little-endian word. *)
Definition bytes2int64 (array : list uint8) : Z :=
  le_int (firstn 8 array).

(** Modelled from the spec: [bytes2int128] of the absent [metro.h], the
    16-byte digest as two unsigned little-endian words, in the order of
    the array. *)
Definition bytes2int128 (array : list uint8) : uint128 :=
  (le_int (firstn 8 array), le_int (firstn 8 (skipn 8 array))).

(** Modelled from the spec: the one-shot [metrohash64] of the absent
    [metro.h] feeds the whole view in one call to a freshly constructed
    instance and reads its digest as an integer. *)
Definition hash64 (buf : list uint8) (len : Z) (seed : Z) : Z :=
  bytes2int64 (fst (Finalize64 (Update buf len (construct seed)))).

(** Modelled from the spec: the one-shot [metrohash128] of the absent
    [metro.h], of the same shape. *)
Definition hash128 (buf : list uint8) (len : Z) (seed : Z) : uint128 :=
  bytes2int128 (fst (Finalize128 (Update buf len (construct seed)))).

(** Modelled from the spec: the primitive as the wrapper imports it.  The
    words read back from a digest are unsigned 64-bit values. *)
Definition metro : Metro.
Proof.
  assert (word : forall l : list uint8, is_uint64 (le_int (firstn 8 l))).
  { intros l. unfold is_uint64.
    assert (R : forall k : list uint8,
               0 <= le_int k < 256 ^ Z.of_nat (length k)).
    { induction k as [|b k IH]; cbn [le_int length]; [cbn; lia|].
      assert (0 <= uint8_val b < 256)
        by (unfold uint8_val; pose proof (Byte.to_N_bounded b); lia).
      rewrite Nat2Z.inj_succ, Z.pow_succ_r by lia. lia. }
    specialize (R (firstn 8 l)).
    pose proof (firstn_le_length 8 l).
    assert (256 ^ Z.of_nat (length (firstn 8 l)) <= 256 ^ 8)
      by (apply Z.pow_le_mono_r; lia).
    change (2 ^ 64) with (256 ^ 8). lia. }
  refine
    {| c_metrohash64 := hash64;
       c_bytes2int64 := bytes2int64;
       c_bytes2int128 := bytes2int128;
       c_metrohash128 := hash128;
       CCMetroHash64 := accumulator;
       CCMetroHash64_new := construct;
       CCMetroHash64_Initialize := Initialize;
       CCMetroHash64_Update := Update;
       CCMetroHash64_Finalize := Finalize64;
       CCMetroHash128 := accumulator;
       CCMetroHash128_new := construct;
       CCMetroHash128_Initialize := Initialize;
       CCMetroHash128_Update := Update;
       CCMetroHash128_Finalize := Finalize128 |}.
  - intros buf len seed. apply word.
  - intros array. apply word.
  - intros array. split; apply word.
  - intros buf len seed. split; apply word.
Defined.

End Mixing.

(** A mixing arithmetic to run the wrapper on: a multiplicative fold over
    the input, started from the seed. *)
Definition fold_mix (k : Z) (seed : Z) (input : list uint8) : Z :=
  fold_left (fun h b => (h * k + uint8_val b + 1) mod 2 ^ 64) input
    (seed mod 2 ^ 64).

Definition sample_mix64 : Z -> list uint8 -> Z := fold_mix 31.

Definition sample_mix128 (seed : Z) (input : list uint8) : Z * Z :=
  (fold_mix 33 (seed + 1) input, fold_mix 37 seed input).

Definition sample : Metro := metro sample_mix64 sample_mix128.

End Primitive.

(** ** Object lifetimes

    The text branch of [update] with the reference counts written out.
    Byte string objects live in a heap, each with its reference count and
    its bytes; an object whose count reaches zero is deallocated.  Reading
    the storage of an object that is not in the heap any more is a
    [Fault]. *)
Module Mem.

Record PyStringObject : Type := { ob_refcnt : Z; ob_bytes : list uint8 }.

Abbreviation heap := (gmap positive PyStringObject).

(** The fields of a [Py_buffer] the wrapper uses, and the exporter the
    view keeps a reference to. *)
Record Py_buffer : Type := { buf : positive; len : Z; obj : positive }.

Inductive outcome (A : Type) : Type :=
| Done (a : A) (h : heap)
| Fault.
Arguments Done {A} a h.
Arguments Fault {A}.

Definition mem (A : Type) : Type := heap -> outcome A.

Definition mret {A : Type} (a : A) : mem A := fun h => Done a h.

Definition mbind {A B : Type} (c : mem A) (k : A -> mem B) : mem B :=
  fun h =>
    match c h with
    | Done a h' => k a h'
    | Fault => Fault
    end.

Notation "'do' x <- c ; k" := (mbind c (fun x => k))
  (at level 60, x name, c at next level, right associativity).

Definition Py_INCREF (o : positive) : mem unit :=
  fun h =>
    match h !! o with
    | Some ob =>
        Done tt
          (<[o := {| ob_refcnt := ob_refcnt ob + 1;
                     ob_bytes := ob_bytes ob |}]> h)
    | None => Fault
    end.

(** The count goes down by one; at zero the object is deallocated. *)
Definition Py_DECREF (o : positive) : mem unit :=
  fun h =>
    match h !! o with
    | Some ob =>
        if ob_refcnt ob - 1 =? 0 then Done tt (delete o h)
        else
          Done tt
            (<[o := {| ob_refcnt := ob_refcnt ob - 1;
                       ob_bytes := ob_bytes ob |}]> h)
    | None => Fault
    end.

(** [PyUnicode_AsUTF8String]: a new byte string with the encoding of
    [data]; the caller owns the one reference to it. *)
Definition AsUTF8String (data : pyobject) : mem positive :=
  fun h =>
    let o := fresh (dom h) in
    let bytes := match data with PyUnicode chars => utf8_encode chars
                 | _ => [] end in
    Done o (<[o := {| ob_refcnt := 1; ob_bytes := bytes |}]> h).

(** [PyObject_GetBuffer] on a byte string: the view points into the
    object and holds a new reference to it. *)
Definition GetBuffer (o : positive) : mem Py_buffer :=
  fun h =>
    match h !! o with
    | Some ob =>
        mbind (Py_INCREF o)
          (fun _ => mret {| buf := o; len := buf_len (ob_bytes ob);
                            obj := o |}) h
    | None => Fault
    end.

(** What a callee reads at the pointer of a view. *)
Definition load (ptr : positive) : mem (list uint8) :=
  fun h =>
    match h !! ptr with
    | Some ob => Done (ob_bytes ob) h
    | None => Fault
    end.

Section TextBranch.
Context {M : Metro}.

(** The statements of the text branch of [update] up to the call of the
    primitive: [obj] is a local of the method and owns the reference
    [PyUnicode_AsUTF8String] returns. *)
Definition update_text_view (data : pyobject) : mem (positive * Py_buffer) :=
  do obj <- AsUTF8String data;
  do b <- GetBuffer obj;
  do _ <- Py_DECREF obj;
  mret (obj, b).

(** The text branch of [MetroHash64.update]; on return the local [obj]
    gives up its reference. *)
Definition MetroHash64_update_text (data : pyobject) (self : MetroHash64)
    : mem MetroHash64 :=
  do v <- update_text_view data;
  do bytes <- load (buf (snd v));
  let self' :=
    {| _m := CCMetroHash64_Update bytes (len (snd v)) (_m self) |} in
  do _ <- Py_DECREF (fst v);
  mret self'.

Definition MetroHash128_update_text (data : pyobject) (self : MetroHash128)
    : mem MetroHash128 :=
  do v <- update_text_view data;
  do bytes <- load (buf (snd v));
  let self' :=
    {| _m128 := CCMetroHash128_Update bytes (len (snd v)) (_m128 self) |} in
  do _ <- Py_DECREF (fst v);
  mret self'.

End TextBranch.
End Mem.

(** ** The other branches, with reference counts

    The text branch of the one-shot functions, and the buffer branch of
    the one-shot functions and of [update], over the heap of [Mem].  In
    the buffer branch [data] is the caller's object: the wrapper borrows
    it. *)
Module Paths.
Import Mem.

Section Branches.
Context {M : Metro}.

(** The text branch of [metrohash64]: the primitive runs before
    [Py_DECREF]; on return the local [obj] gives up its reference. *)
Definition metrohash64_text (data : pyobject) (seed : Z) : mem Z :=
  do obj <- AsUTF8String data;
  do b <- GetBuffer obj;
  do bytes <- load (buf b);
  let result := c_metrohash64 bytes (len b) seed in
  do _ <- Py_DECREF obj;
  do _ <- Py_DECREF obj;
  mret result.

Definition metrohash128_text (data : pyobject) (seed : Z) : mem Z :=
  do obj <- AsUTF8String data;
  do b <- GetBuffer obj;
  do bytes <- load (buf b);
  let result := c_metrohash128 bytes (len b) seed in
  do _ <- Py_DECREF obj;
  let final := 0x10000000000000000 * first result + second result in
  do _ <- Py_DECREF obj;
  mret final.

(** The buffer branch of [metrohash64]: the view is taken and never
    released. *)
Definition metrohash64_buffer (data : positive) (seed : Z) : mem Z :=
  do b <- GetBuffer data;
  do bytes <- load (buf b);
  let result := c_metrohash64 bytes (len b) seed in
  mret result.

Definition metrohash128_buffer (data : positive) (seed : Z) : mem Z :=
  do b <- GetBuffer data;
  do bytes <- load (buf b);
  let result := c_metrohash128 bytes (len b) seed in
  let final := 0x10000000000000000 * first result + second result in
  mret final.

(** The buffer branch of [MetroHash64.update] and [MetroHash128.update]. *)
Definition MetroHash64_update_buffer (data : positive) (self : MetroHash64)
    : mem MetroHash64 :=
  do b <- GetBuffer data;
  do bytes <- load (buf b);
  mret {| _m := CCMetroHash64_Update bytes (len b) (_m self) |}.

Definition MetroHash128_update_buffer (data : positive) (self : MetroHash128)
    : mem MetroHash128 :=
  do b <- GetBuffer data;
  do bytes <- load (buf b);
  mret {| _m128 := CCMetroHash128_Update bytes (len b) (_m128 self) |}.

End Branches.
End Paths.

(** ** The hasher object and its primitive instance

    [__cinit__] allocates the instance of the primitive with [new] and
    keeps the pointer in the field [_m]; [__dealloc__] deletes it.  The
    instances live in a store; [ptr] is the field, [None] for [NULL].
    Following a [NULL] or dangling pointer, or deleting what is not
    allocated, is a [Crash].  The two classes have the same text up to the
    type of the primitive and the assembly of the digest, which are the
    parameters of the section. *)
Module Lifetime.

Record hasher : Type := { ptr : option positive }.

Inductive exc : Type :=
| MemoryError
| Exc (e : pyexc).

Section Object.
Variable T : Type.

Inductive outcome (A : Type) : Type :=
| Return (a : A) (self : hasher) (h : gmap positive T)
| Raised (e : exc) (self : hasher) (h : gmap positive T)
| Crash.
Arguments Return {A} a self h.
Arguments Raised {A} e self h.
Arguments Crash {A}.

(** [new]: a pointer to a fresh instance.  A C++ [new] does not return
    [NULL]: when memory is exhausted it throws, and as the constructor is
    not declared to turn that into a Python exception the process ends,
    which is no outcome of a call. *)
Definition operator_new (init : T) (h : gmap positive T)
    : option positive * gmap positive T :=
  let a := fresh (dom h) in (Some a, <[a := init]> h).

Variable construct : Z -> T.
Variable Initialize : Z -> T -> T.
Variable Update : list uint8 -> Z -> T -> T.
Variable digest : T -> Z * T.

Definition __cinit__ (seed : option Z) (self : hasher)
    (h : gmap positive T) : outcome unit :=
  let (p, h') := operator_new (construct (seed_arg seed)) h in
  let self := {| ptr := p |} in
  match ptr self with
  | None => Raised MemoryError self h'
  | Some _ => Return tt self h'
  end.

Definition __dealloc__ (self : hasher) (h : gmap positive T)
    : outcome unit :=
  match ptr self with
  | Some a =>
      match h !! a with
      | Some _ => Return tt {| ptr := None |} (delete a h)
      | None => Crash
      end
  | None => Return tt self h
  end.

(** The construction of a hasher from Python: the object is allocated
    with its fields zeroed, so [_m] is [NULL]; the seed is unpacked and
    [__cinit__] runs; when either raises, the object is released, which
    runs [__dealloc__]. *)
Definition release_failed (e : exc) (self : hasher) (h : gmap positive T)
    : outcome unit :=
  match __dealloc__ self h with
  | Return _ self' h' => Raised e self' h'
  | Raised e' self' h' => Raised e' self' h'
  | Crash => Crash
  end.

Definition tp_new (seed : option Z) (h : gmap positive T) : outcome unit :=
  let self := {| ptr := None |} in
  match seed_from_python seed with
  | Ok seed =>
      match __cinit__ seed self h with
      | Raised e self' h' => release_failed e self' h'
      | o => o
      end
  | Raise e => release_failed (Exc e) self h
  end.

(** A call of a method of the primitive through [self._m]. *)
Definition through_m {A : Type} (f : T -> A * T) (self : hasher)
    (h : gmap positive T) : outcome A :=
  match ptr self with
  | Some a =>
      match h !! a with
      | Some m => let (r, m') := f m in Return r self (<[a := m']> h)
      | None => Crash
      end
  | None => Crash
  end.

Definition initialize (seed : option Z) (self : hasher)
    (h : gmap positive T) : outcome unit :=
  through_m (fun m => (tt, Initialize (seed_arg seed) m)) self h.

Definition update (data : pyobject) (self : hasher) (h : gmap positive T)
    : outcome unit :=
  if PyUnicode_Check data then
    let obj := PyUnicode_AsUTF8String data in
    match PyObject_GetBuffer obj with
    | Ok buf => through_m (fun m => (tt, Update buf (buf_len buf) m)) self h
    | Raise e => Raised (Exc e) self h
    end
  else if PyString_Check data then
    through_m
      (fun m =>
         (tt, Update (PyString_AS_STRING data) (PyString_GET_SIZE data) m))
      self h
  else if PyObject_CheckBuffer data then
    match PyObject_GetBuffer data with
    | Ok buf => through_m (fun m => (tt, Update buf (buf_len buf) m)) self h
    | Raise e => Raised (Exc e) self h
    end
  else
    Raised (Exc (_type_error "data" ["basestring"; "buffer"] data)) self h.

Definition intdigest (self : hasher) (h : gmap positive T) : outcome Z :=
  through_m digest self h.

(** A caller's use of a hasher: a sequence of method calls, each of whose
    exceptions the caller handles before the next call. *)
Inductive call : Type :=
| call_initialize (seed : option Z)
| call_update (data : pyobject)
| call_intdigest.

Definition after {A : Type} (o : outcome A)
    : option (hasher * gmap positive T) :=
  match o with
  | Return _ self h => Some (self, h)
  | Raised _ self h => Some (self, h)
  | Crash => None
  end.

Definition run_call (c : call) (self : hasher) (h : gmap positive T)
    : option (hasher * gmap positive T) :=
  match c with
  | call_initialize seed => after (initialize seed self h)
  | call_update data => after (update data self h)
  | call_intdigest => after (intdigest self h)
  end.

Fixpoint run_calls (cs : list call) (self : hasher) (h : gmap positive T)
    : option (hasher * gmap positive T) :=
  match cs with
  | [] => Some (self, h)
  | c :: cs' =>
      match run_call c self h with
      | Some (self', h') => run_calls cs' self' h'
      | None => None
      end
  end.

End Object.

Arguments Return {T A} a self h.
Arguments Raised {T A} e self h.
Arguments Crash {T A}.

Section Classes.
Context {M : Metro}.

(** The body of [MetroHash64.intdigest] on the instance. *)
Definition digest64 (m : CCMetroHash64) : Z * CCMetroHash64 :=
  let (buf, m') := CCMetroHash64_Finalize m in
  (c_bytes2int64 buf, m').

(** The body of [MetroHash128.intdigest] on the instance. *)
Definition digest128 (m : CCMetroHash128) : Z * CCMetroHash128 :=
  let (buf, m') := CCMetroHash128_Finalize m in
  let result := c_bytes2int128 buf in
  (0x10000000000000000 * first result + second result, m').

End Classes.
End Lifetime.

(** ** The byte view of a value

    Each entry point repeats the same tests on [data] and takes the same
    view; [adapt] is that dispatch as one function from a value to its
    byte view or the exception raised, and the lemmas below relate each
    entry point to it.  A value whose type implements the buffer protocol
    but which refuses the view fails with the exception of
    [PyObject_GetBuffer]. *)
Definition adapt (input : pyobject) : result (list uint8) :=
  match input with
  | PyUnicode chars => Ok (utf8_encode chars)
  | PyString s => Ok s
  | PyBuffer _ mem => Ok mem
  | PyNoSimpleBuffer _ err => Raise err
  | _ => Raise (_type_error "data" ["basestring"; "buffer"] input)
  end.

(** A value that fails the three type tests of the wrapper. *)
Definition fails_type_tests (data : pyobject) : bool :=
  negb (PyUnicode_Check data) && negb (PyString_Check data)
  && negb (PyObject_CheckBuffer data).

Definition gives_view (data : pyobject) : bool :=
  match PyObject_GetBuffer data with
  | Ok _ => true
  | Raise _ => false
  end.

(** A value of none of the accepted categories: not a text, not a byte
    string and not an object that gives a view of its buffer. *)
Definition unsupported (data : pyobject) : bool :=
  negb (PyUnicode_Check data) && negb (PyString_Check data)
  && negb (PyObject_CheckBuffer data && gives_view data).

(** The bytes an entry point hands to the primitive for a value it
    accepts. *)
Definition byte_view (data : pyobject) : list uint8 :=
  match adapt data with
  | Ok view => view
  | Raise _ => []
  end.

(** The wide-integer assembly of the specification, [high << 64 | low]. *)
Definition assemble128 (high low : Z) : Z :=
  Z.lor (Z.shiftl high 64) low.


(** * Properties *)

(** ** Bytes and words *)

Lemma uint8_val_to_uint8 (z : Z) : uint8_val (to_uint8 z) = z mod 256.
Proof.
  unfold uint8_val, to_uint8.
  assert (Hr : 0 <= z mod 256 < 256) by (apply Z.mod_pos_bound; lia).
  destruct (Byte.of_N (Z.to_N (z mod 256))) as [b|] eqn:E.
  - apply Byte.to_of_N in E. rewrite E. lia.
  - apply Byte.of_N_None_iff in E. lia.
Qed.

Lemma le_int_le_bytes (n : nat) (z : Z) :
  le_int (le_bytes n z) = z mod 256 ^ Z.of_nat n.
Proof.
  revert z. induction n as [|n IH]; intros z.
  - cbn. now rewrite Z.mod_1_r.
  - cbn [le_bytes le_int]. rewrite IH, uint8_val_to_uint8.
    rewrite Nat2Z.inj_succ, Z.pow_succ_r by lia.
    rewrite Z.rem_mul_r by lia. lia.
Qed.

Lemma length_le_bytes (n : nat) (z : Z) : length (le_bytes n z) = n.
Proof.
  revert z. induction n as [|n IH]; intros z; cbn; [reflexivity|].
  now rewrite IH.
Qed.


Section WrapperFacts.
Context {M : Metro}.

Lemma metrohash64_adapt (data : pyobject) (seed : option Z) :
  metrohash64 data seed =
  match adapt data with
  | Ok view => Ok (c_metrohash64 view (buf_len view) (seed_arg seed))
  | Raise e => Raise e
  end.
Proof.
  destruct data; reflexivity.
Qed.

Lemma metrohash128_adapt (data : pyobject) (seed : option Z) :
  metrohash128 data seed =
  match adapt data with
  | Ok view =>
      let r := c_metrohash128 view (buf_len view) (seed_arg seed) in
      Ok (2 ^ 64 * first r + second r)
  | Raise e => Raise e
  end.
Proof.
  destruct data; reflexivity.
Qed.

Lemma MetroHash64_update_adapt (data : pyobject) (self : MetroHash64) :
  MetroHash64_update data self =
  match adapt data with
  | Ok view =>
      (Ok tt, {| _m := CCMetroHash64_Update view (buf_len view) (_m self) |})
  | Raise e => (Raise e, self)
  end.
Proof.
  destruct data; reflexivity.
Qed.

Lemma MetroHash128_update_adapt (data : pyobject) (self : MetroHash128) :
  MetroHash128_update data self =
  match adapt data with
  | Ok view =>
      (Ok tt,
       {| _m128 := CCMetroHash128_Update view (buf_len view) (_m128 self) |})
  | Raise e => (Raise e, self)
  end.
Proof.
  destruct data; reflexivity.
Qed.

Lemma adapt_fails_type_tests (data : pyobject) :
  fails_type_tests data = true ->
  adapt data = Raise (_type_error "data" ["basestring"; "buffer"] data).
Proof.
  destruct data; cbn; intros H; try discriminate H; reflexivity.
Qed.

(** What a value that is not accepted raises: the type error when it
    fails the three tests, the exception of [PyObject_GetBuffer] when its
    type implements the buffer protocol. *)
Lemma adapt_unsupported (data : pyobject) :
  unsupported data = true ->
  exists e : pyexc,
    adapt data = Raise e /\
    (fails_type_tests data = true ->
     e = _type_error "data" ["basestring"; "buffer"] data) /\
    (PyObject_CheckBuffer data = true -> PyObject_GetBuffer data = Raise e).
Proof.
  destruct data; cbn; intros H; try discriminate H;
    (eexists; split; [reflexivity|]; split; intros H';
       try discriminate H'; reflexivity).
Qed.

End WrapperFacts.

Lemma assemble128_sum (high low : Z) :
  0 <= low < 2 ^ 64 -> assemble128 high low = 2 ^ 64 * high + low.
Proof.
  intros Hlow. unfold assemble128.
  rewrite Z.shiftl_mul_pow2 by lia.
  rewrite <- Z.add_nocarry_lor.
  - lia.
  - apply Z.bits_inj'. intros n Hn.
    rewrite Z.land_spec, Z.bits_0.
    destruct (Z.lt_ge_cases n 64) as [Hlt|Hge].
    + rewrite Z.mul_pow2_bits_low by lia. reflexivity.
    + assert (Z.testbit low n = false) as ->.
      { destruct (Z.eq_dec low 0) as [->|Hne].
        - apply Z.bits_0.
        - apply Z.bits_above_log2; [lia|].
          apply Z.lt_le_trans with 64; [|lia].
          apply Z.log2_lt_pow2; lia. }
      apply andb_false_r.
Qed.

Lemma assemble_range (high low : Z) :
  is_uint64 high -> is_uint64 low ->
  0 <= 2 ^ 64 * high + low < 2 ^ 128.
Proof.
  unfold is_uint64. intros Hh Hl.
  change (2 ^ 128) with (2 ^ 64 * 2 ^ 64). nia.
Qed.

Lemma assemble_high_low (high low : Z) :
  is_uint64 low ->
  (2 ^ 64 * high + low) / 2 ^ 64 = high /\
  (2 ^ 64 * high + low) mod 2 ^ 64 = low.
Proof.
  unfold is_uint64. intros Hl. split.
  - rewrite Z.mul_comm, Z.div_add_l by lia.
    rewrite Z.div_small by lia. lia.
  - rewrite Z.add_comm, Z.mul_comm, Z.mod_add by lia.
    apply Z.mod_small. lia.
Qed.

Lemma string_append_assoc (a b c : string) :
  String.append (String.append a b) c = String.append a (String.append b c).
Proof.
  induction a as [|x a IH]; [reflexivity|].
  change (String x (String.append (String.append a b) c) =
          String x (String.append a (String.append b c))).
  now rewrite IH.
Qed.

Lemma _type_error_message (value : pyobject) :
  _type_error "data" ["basestring"; "buffer"] value =
  TypeError
    (String.append
       "Argument 'data' has incorrect type (expected ['basestring', 'buffer'], got "
       (String.append (py_str_type (Py_TYPE value)) ")")).
Proof.
  reflexivity.
Qed.

(** * The wrapper, for any primitive *)

(** C2: on every supported input, [metrohash128] returns
    [high * 2^64 + low], where [high] is the first word of the pair the
    128-bit primitive returns and [low] the second: the first word is the
    quotient of the result by [2^64] and the second its remainder. *)
Theorem metrohash128_high_low {M : Metro} (data : pyobject)
    (seed : option Z) (view : list uint8) :
  adapt data = Ok view ->
  let high := first (c_metrohash128 view (buf_len view) (seed_arg seed)) in
  let low := second (c_metrohash128 view (buf_len view) (seed_arg seed)) in
  metrohash128 data seed = Ok (high * 2 ^ 64 + low) /\
  (high * 2 ^ 64 + low) / 2 ^ 64 = high /\
  (high * 2 ^ 64 + low) mod 2 ^ 64 = low.
Proof.
  intros Hview high low.
  rewrite metrohash128_adapt, Hview. cbv zeta. fold high low.
  destruct (c_metrohash128_uint64 view (buf_len view) (seed_arg seed))
    as [_ Hlow].
  fold low in Hlow.
  rewrite (Z.mul_comm high). split; [reflexivity|].
  now apply assemble_high_low.
Qed.

Lemma metrohash128_high_low_witness :
  adapt (PyBuffer "bytearray" [x61; x62]) = Ok [x61; x62] /\
  metrohash128 (M := Primitive.sample) (PyBuffer "bytearray" [x61; x62])
    (Some 7) = Ok 222191032367831549228028.
Proof.
  split; [reflexivity|].
  pose proof (metrohash128_high_low (M := Primitive.sample)
                (PyBuffer "bytearray" [x61; x62]) (Some 7) [x61; x62]
                eq_refl) as [H _].
  rewrite H. vm_compute. reflexivity.
Defined.

(** C5, as the code has it: a value from which no byte view is obtained
    makes [metrohash64], [metrohash128] and both [update] methods raise,
    and a failed [update] leaves the hasher as it was, and so every digest
    read afterwards.  When the value fails the three type tests (it is not
    text, not a byte string and its type has no buffer protocol) the
    exception is the type error that names the parameter, the accepted
    categories and [str] of the type met; when its type has the buffer
    protocol but the view is refused, it is the exception of
    [PyObject_GetBuffer]. *)
Theorem unsupported_input_raises {M : Metro} (data : pyobject)
    (seed : option Z) (h64 : MetroHash64) (h128 : MetroHash128) :
  unsupported data = true ->
  exists e : pyexc,
    metrohash64 data seed = Raise e /\
    metrohash128 data seed = Raise e /\
    MetroHash64_update data h64 = (Raise e, h64) /\
    MetroHash128_update data h128 = (Raise e, h128) /\
    MetroHash64_intdigest (leaves (MetroHash64_update data) h64) =
      MetroHash64_intdigest h64 /\
    MetroHash128_intdigest (leaves (MetroHash128_update data) h128) =
      MetroHash128_intdigest h128 /\
    (fails_type_tests data = true ->
     e = TypeError
           (String.append
              "Argument 'data' has incorrect type (expected ['basestring', 'buffer'], got "
              (String.append (py_str_type (Py_TYPE data)) ")"))) /\
    (PyObject_CheckBuffer data = true -> PyObject_GetBuffer data = Raise e).
Proof.
  intros Hun.
  destruct (adapt_unsupported data Hun) as (e & Ha & Htype & Hview).
  exists e. unfold leaves.
  rewrite metrohash64_adapt, metrohash128_adapt, MetroHash64_update_adapt,
    MetroHash128_update_adapt, Ha.
  repeat split; try reflexivity; assumption.
Qed.

Lemma unsupported_input_raises_witness :
  unsupported (PyList [PyInt 1; PyNone]) = true /\
  metrohash64 (M := Primitive.sample) (PyList [PyInt 1; PyNone]) None =
    Raise (TypeError
      "Argument 'data' has incorrect type (expected ['basestring', 'buffer'], got <type 'list'>)") /\
  MetroHash64_update (M := Primitive.sample)
    (PyInstance {| tp_heaptype := true; tp_module := "__main__";
                   tp_name := "Point" |})
    (MetroHash64___cinit__ (Some 3)) =
    (Raise (TypeError
       "Argument 'data' has incorrect type (expected ['basestring', 'buffer'], got <class '__main__.Point'>)"),
     MetroHash64___cinit__ (Some 3)) /\
  returns
    (MetroHash64_update (M := Primitive.sample) (PyString [x61]) >>
     MetroHash64_intdigest)
    (leaves (MetroHash64_update (PyInt 5))
       (MetroHash64___cinit__ (Some 3))) = Ok 191.
Proof.
  split; [reflexivity|]. split; [|split].
  - destruct (unsupported_input_raises (M := Primitive.sample)
                (PyList [PyInt 1; PyNone]) None
                (MetroHash64___cinit__ None)
                (MetroHash128___cinit__ None) eq_refl)
      as (e & H & _ & _ & _ & _ & _ & He & _).
    rewrite H, (He eq_refl). reflexivity.
  - destruct (unsupported_input_raises (M := Primitive.sample)
                (PyInstance {| tp_heaptype := true; tp_module := "__main__";
                               tp_name := "Point" |}) None
                (MetroHash64___cinit__ (Some 3))
                (MetroHash128___cinit__ None) eq_refl)
      as (e & _ & _ & H & _ & _ & _ & He & _).
    rewrite H, (He eq_refl). reflexivity.
  - destruct (unsupported_input_raises (M := Primitive.sample)
                (PyInt 5) None (MetroHash64___cinit__ (Some 3))
                (MetroHash128___cinit__ None) eq_refl)
      as (e & _ & _ & H & _).
    unfold leaves. rewrite H. vm_compute. reflexivity.
Defined.

(** C5, as the claim has it, fails: a value that is neither text, nor a
    byte string, nor an object exposing a contiguous buffer (an array
    whose memory is not contiguous: its type has the buffer protocol, and
    its exporter refuses the view with a [ValueError]) does not raise the
    type error of the wrapper, but the exception of the exporter. *)
Lemma unsupported_input_type_error_counterexample :
  let data :=
    PyNoSimpleBuffer
      {| tp_heaptype := false; tp_module := "numpy"; tp_name := "ndarray" |}
      (ValueError "ndarray is not C-contiguous") in
  PyUnicode_Check data = false /\
  PyString_Check data = false /\
  gives_view data = false /\
  metrohash64 (M := Primitive.sample) data None =
    Raise (ValueError "ndarray is not C-contiguous") /\
  MetroHash64_update (M := Primitive.sample) data
    (MetroHash64___cinit__ None) =
    (Raise (ValueError "ndarray is not C-contiguous"),
     MetroHash64___cinit__ None) /\
  metrohash64 (M := Primitive.sample) data None <>
    Raise (_type_error "data" ["basestring"; "buffer"] data).
Proof.
  cbv zeta. repeat split; try reflexivity. discriminate.
Qed.

(** C6: hashing a text gives what hashing its UTF-8 encoding gives, for
    [metrohash64], [metrohash128] and for [update] on either hasher. *)
Theorem text_equals_utf8_bytes {M : Metro} (t : list Z) (s : option Z)
    (h64 : MetroHash64) (h128 : MetroHash128) :
  metrohash64 (PyUnicode t) s = metrohash64 (PyString (utf8_encode t)) s /\
  metrohash128 (PyUnicode t) s = metrohash128 (PyString (utf8_encode t)) s /\
  MetroHash64_update (PyUnicode t) h64 =
    MetroHash64_update (PyString (utf8_encode t)) h64 /\
  MetroHash128_update (PyUnicode t) h128 =
    MetroHash128_update (PyString (utf8_encode t)) h128.
Proof.
  rewrite !metrohash64_adapt, !metrohash128_adapt,
    !MetroHash64_update_adapt, !MetroHash128_update_adapt.
  repeat split; reflexivity.
Qed.

(** C8: the one-shot 128-bit path and the incremental 128-bit digest
    assemble the pair of the primitive in the same way: each returns
    [2^64 * first + second] of its pair, which is the wide-integer
    assembly [first << 64 | second] of the specification. *)
Theorem assembly_128_identical {M : Metro} (bytes : list uint8)
    (seed : option Z) (self : MetroHash128) :
  let one_shot := c_metrohash128 bytes (buf_len bytes) (seed_arg seed) in
  let incremental :=
    c_bytes2int128 (fst (CCMetroHash128_Finalize (_m128 self))) in
  metrohash128 (PyString bytes) seed =
    Ok (2 ^ 64 * first one_shot + second one_shot) /\
  returns MetroHash128_intdigest self =
    Ok (2 ^ 64 * first incremental + second incremental) /\
  2 ^ 64 * first one_shot + second one_shot =
    assemble128 (first one_shot) (second one_shot) /\
  2 ^ 64 * first incremental + second incremental =
    assemble128 (first incremental) (second incremental).
Proof.
  intros one_shot incremental. split; [|split; [|split]].
  - rewrite metrohash128_adapt. reflexivity.
  - unfold returns, MetroHash128_intdigest. subst incremental.
    destruct (CCMetroHash128_Finalize (_m128 self)) as [b m]. reflexivity.
  - symmetry. apply assemble128_sum.
    apply (c_metrohash128_uint64 bytes (buf_len bytes) (seed_arg seed)).
  - symmetry. apply assemble128_sum.
    apply (c_bytes2int128_uint64
             (fst (CCMetroHash128_Finalize (_m128 self)))).
Qed.

(** C9: a digest is within its declared width: [metrohash64] and
    [MetroHash64.intdigest] return a value in [0, 2^64), [metrohash128] and
    [MetroHash128.intdigest] a value in [0, 2^128), and the 128-bit result
    keeps its high word: divided by [2^64] it gives the first word of the
    primitive's pair. *)
Theorem digest_within_width {M : Metro} (data : pyobject) (seed : option Z)
    (view : list uint8) (h64 : MetroHash64) (h128 : MetroHash128) :
  adapt data = Ok view ->
  (exists v, metrohash64 data seed = Ok v /\ 0 <= v < 2 ^ 64) /\
  (exists v, returns MetroHash64_intdigest h64 = Ok v /\ 0 <= v < 2 ^ 64) /\
  (exists v, metrohash128 data seed = Ok v /\ 0 <= v < 2 ^ 128 /\
     v / 2 ^ 64 =
       first (c_metrohash128 view (buf_len view) (seed_arg seed))) /\
  (exists v, returns MetroHash128_intdigest h128 = Ok v /\
     0 <= v < 2 ^ 128 /\
     v / 2 ^ 64 =
       first (c_bytes2int128 (fst (CCMetroHash128_Finalize (_m128 h128))))).
Proof.
  intros Hview. split; [|split; [|split]].
  - rewrite metrohash64_adapt, Hview. eexists. split; [reflexivity|].
    apply c_metrohash64_uint64.
  - unfold returns, MetroHash64_intdigest.
    destruct (CCMetroHash64_Finalize (_m h64)) as [b m]. cbn.
    eexists. split; [reflexivity|]. apply c_bytes2int64_uint64.
  - rewrite metrohash128_adapt, Hview. cbv zeta.
    destruct (c_metrohash128_uint64 view (buf_len view) (seed_arg seed))
      as [Hf Hs].
    eexists. split; [reflexivity|]. split.
    + now apply assemble_range.
    + now apply assemble_high_low.
  - unfold returns, MetroHash128_intdigest.
    destruct (CCMetroHash128_Finalize (_m128 h128)) as [b m]. cbn [fst].
    destruct (c_bytes2int128_uint64 b) as [Hf Hs].
    eexists. split; [reflexivity|]. split.
    + now apply assemble_range.
    + now apply assemble_high_low.
Qed.

Lemma digest_within_width_witness :
  adapt (PyUnicode [0xe9; 0x20ac]) = Ok [xc3; xa9; xe2; x82; xac] /\
  exists v,
    metrohash128 (M := Primitive.sample) (PyUnicode [0xe9; 0x20ac]) None =
      Ok v /\
    0 <= v < 2 ^ 128 /\
    v / 2 ^ 64 =
      first (c_metrohash128 (Metro := Primitive.sample)
               [xc3; xa9; xe2; x82; xac] 5 0).
Proof.
  split; [reflexivity|].
  exact (proj1 (proj2 (proj2
    (digest_within_width (M := Primitive.sample)
       (PyUnicode [0xe9; 0x20ac]) None [xc3; xa9; xe2; x82; xac]
       (MetroHash64___cinit__ None) (MetroHash128___cinit__ None)
       eq_refl)))).
Defined.

(** ** Runs of the wrapper on the sample arithmetic *)

Example utf8_encode_example :
  utf8_encode [0x41; 0xe9; 0x20ac; 0x1F600] =
  [x41; xc3; xa9; xe2; x82; xac; xf0; x9f; x98; x80].
Proof. reflexivity. Qed.

Example metrohash64_type_error_example :
  metrohash64 (M := Primitive.sample) PyNone (Some 1) =
  Raise (TypeError
    "Argument 'data' has incorrect type (expected ['basestring', 'buffer'], got <type 'NoneType'>)").
Proof. reflexivity. Qed.

Example chunked_run_example :
  returns
    (for_each (MetroHash64_update (M := Primitive.sample))
       [PyString [x61]; PyUnicode [0x62]; PyBuffer "bytearray" [x63]] >>
     MetroHash64_intdigest) (MetroHash64___cinit__ (Some 1)) = Ok 127138 /\
  metrohash64 (M := Primitive.sample) (PyString [x61; x62; x63]) (Some 1) =
    Ok 127138.
Proof. split; vm_compute; reflexivity. Qed.

(** * Lifetime of the encoded text *)

Lemma fresh_not_allocated (h : Mem.heap) : h !! fresh (dom h) = None.
Proof.
  apply not_elem_of_dom. apply is_fresh.
Qed.

Lemma update_text_view_run (chars : list Z) (h : Mem.heap) :
  let o := fresh (dom h) in
  let bytes := utf8_encode chars in
  Mem.update_text_view (PyUnicode chars) h =
  Mem.Done
    (o, {| Mem.buf := o; Mem.len := buf_len bytes; Mem.obj := o |})
    (<[o := {| Mem.ob_refcnt := 1; Mem.ob_bytes := bytes |}]> h).
Proof.
  intros o bytes.
  unfold Mem.update_text_view, Mem.mbind, Mem.AsUTF8String,
    Mem.GetBuffer, Mem.mbind, Mem.Py_INCREF, Mem.Py_DECREF,
    Mem.mret.
  fold o bytes. rewrite !lookup_insert_eq. cbn.
  rewrite !insert_insert_eq. reflexivity.
Qed.

(** C3: in the text branch of [update], of either hasher, the byte string
    holding the UTF-8 encoding is still allocated when its bytes are
    passed to the primitive's [Update]: the view points at an object of
    the heap with one reference left, holding the encoding; the call reads
    it without fault, feeds the primitive what the method is to feed, and
    the object is released on return. *)
Theorem text_buffer_alive_at_Update {M : Metro} (chars : list Z)
    (h : Mem.heap) (h64 : MetroHash64) (h128 : MetroHash128) :
  exists (o : positive) (b : Mem.Py_buffer) (h' : Mem.heap),
    Mem.update_text_view (PyUnicode chars) h = Mem.Done (o, b) h' /\
    h' !! Mem.buf b =
      Some {| Mem.ob_refcnt := 1; Mem.ob_bytes := utf8_encode chars |} /\
    Mem.load (Mem.buf b) h' = Mem.Done (utf8_encode chars) h' /\
    Mem.len b = buf_len (utf8_encode chars) /\
    Mem.MetroHash64_update_text (PyUnicode chars) h64 h =
      Mem.Done (leaves (MetroHash64_update (PyUnicode chars)) h64) h /\
    Mem.MetroHash128_update_text (PyUnicode chars) h128 h =
      Mem.Done (leaves (MetroHash128_update (PyUnicode chars)) h128) h.
Proof.
  pose proof (update_text_view_run chars h) as Hview. cbv zeta in Hview.
  pose proof (fresh_not_allocated h) as Hfresh.
  eexists _, _, _. split; [exact Hview|]. cbn [Mem.buf Mem.len].
  split; [apply lookup_insert_eq|].
  split; [unfold Mem.load; now rewrite lookup_insert_eq|].
  split; [reflexivity|].
  split.
  - unfold Mem.MetroHash64_update_text. unfold Mem.mbind at 1.
    rewrite Hview. cbn [fst snd Mem.buf Mem.len].
    unfold Mem.mbind, Mem.load, Mem.Py_DECREF, Mem.mret.
    rewrite !lookup_insert_eq. cbn.
    now rewrite delete_insert_id by exact Hfresh.
  - unfold Mem.MetroHash128_update_text. unfold Mem.mbind at 1.
    rewrite Hview. cbn [fst snd Mem.buf Mem.len].
    unfold Mem.mbind, Mem.load, Mem.Py_DECREF, Mem.mret.
    rewrite !lookup_insert_eq. cbn.
    now rewrite delete_insert_id by exact Hfresh.
Qed.

(** * Sequences of calls *)

Lemma for_each_app {S A : Type} (f : A -> method S unit) (l1 l2 : list A)
    (self : S) :
  for_each f (l1 ++ l2) self = (for_each f l1 >> for_each f l2) self.
Proof.
  revert self. induction l1 as [|x l1 IH]; intros self.
  - reflexivity.
  - cbn [app for_each]. unfold seq, bind in *.
    destruct (f x self) as [[[]|e] self']; [|reflexivity].
    apply IH.
Qed.

(** A call that returns and leaves the object as it was can be dropped
    from a sequence of calls. *)
Lemma for_each_skip {S A : Type} (f : A -> method S unit) (x : A)
    (pre post : list A) (self : S) :
  (forall s, f x s = (Ok tt, s)) ->
  for_each f (pre ++ x :: post) self = for_each f (pre ++ post) self.
Proof.
  intros Hx. rewrite !for_each_app. unfold seq, bind.
  destruct (for_each f pre self) as [[[]|e] self']; [|reflexivity].
  cbn [for_each]. unfold seq, bind. now rewrite Hx.
Qed.

(** * The wrapper over the primitive of the specification *)
Section OverPrimitive.
Variable mix64 : Z -> list uint8 -> Z.
Variable mix128 : Z -> list uint8 -> Z * Z.

Local Abbreviation P := (Primitive.metro mix64 mix128).

Lemma Update_whole (bytes : list uint8) (a : Primitive.accumulator) :
  Primitive.Update bytes (buf_len bytes) a =
  {| Primitive.acc_seed := Primitive.acc_seed a;
     Primitive.acc_input := Primitive.acc_input a ++ bytes |}.
Proof.
  unfold Primitive.Update, buf_len. now rewrite Nat2Z.id, firstn_all.
Qed.

Lemma feed64 (chunks : list (list uint8)) (self : MetroHash64 (M := P)) :
  for_each MetroHash64_update (map PyString chunks) self =
  (Ok tt,
   @Build_MetroHash64 P
     {| Primitive.acc_seed := Primitive.acc_seed (_m self);
        Primitive.acc_input :=
          Primitive.acc_input (_m self) ++ concat chunks |}).
Proof.
  revert self. induction chunks as [|c chunks IH]; intros [[s i]].
  - cbn. now rewrite app_nil_r.
  - cbn [map for_each concat]. unfold seq, bind.
    rewrite MetroHash64_update_adapt. cbn [adapt _m].
    change (CCMetroHash64_Update (Metro := P)) with Primitive.Update.
    rewrite Update_whole, IH. cbn. now rewrite app_assoc.
Qed.

Lemma feed128 (chunks : list (list uint8)) (self : MetroHash128 (M := P)) :
  for_each MetroHash128_update (map PyString chunks) self =
  (Ok tt,
   @Build_MetroHash128 P
     {| Primitive.acc_seed := Primitive.acc_seed (_m128 self);
        Primitive.acc_input :=
          Primitive.acc_input (_m128 self) ++ concat chunks |}).
Proof.
  revert self. induction chunks as [|c chunks IH]; intros [[s i]].
  - cbn. now rewrite app_nil_r.
  - cbn [map for_each concat]. unfold seq, bind.
    rewrite MetroHash128_update_adapt. cbn [adapt _m128].
    change (CCMetroHash128_Update (Metro := P)) with Primitive.Update.
    rewrite Update_whole, IH. cbn. now rewrite app_assoc.
Qed.

(** The digest of a hasher that was reset or constructed with [seed] and
    then fed [chunks], against the one-shot hash. *)
Lemma fed_digest64 (seed : Z) (chunks : list (list uint8)) :
  returns
    (for_each MetroHash64_update (map PyString chunks) >>
     MetroHash64_intdigest)
    (MetroHash64___cinit__ (M := P) (Some seed)) =
  metrohash64 (M := P) (PyString (concat chunks)) (Some seed).
Proof.
  unfold returns, seq, bind. rewrite feed64.
  rewrite metrohash64_adapt. cbn [adapt seed_arg].
  change (c_metrohash64 (Metro := P)) with (Primitive.hash64 mix64).
  unfold Primitive.hash64. rewrite Update_whole. reflexivity.
Qed.

Lemma fed_digest128 (seed : Z) (chunks : list (list uint8)) :
  returns
    (for_each MetroHash128_update (map PyString chunks) >>
     MetroHash128_intdigest)
    (MetroHash128___cinit__ (M := P) (Some seed)) =
  metrohash128 (M := P) (PyString (concat chunks)) (Some seed).
Proof.
  unfold returns, seq, bind. rewrite feed128.
  rewrite metrohash128_adapt. cbn [adapt seed_arg].
  change (c_metrohash128 (Metro := P)) with (Primitive.hash128 mix128).
  unfold Primitive.hash128. rewrite Update_whole. reflexivity.
Qed.

(** The value of the 64-bit digest: the word of the mixing arithmetic. *)
Lemma metrohash64_value (bytes : list uint8) (seed : Z) :
  metrohash64 (M := P) (PyString bytes) (Some seed) =
  Ok (mix64 seed bytes mod 2 ^ 64).
Proof.
  rewrite metrohash64_adapt. cbn [adapt seed_arg].
  change (c_metrohash64 (Metro := P)) with (Primitive.hash64 mix64).
  unfold Primitive.hash64. rewrite Update_whole.
  unfold Primitive.Finalize64, Primitive.bytes2int64. cbn [fst].
  rewrite <- (length_le_bytes 8 (mix64 seed bytes)) at 1.
  rewrite firstn_all, le_int_le_bytes. reflexivity.
Qed.

(** C1: for every seed and every partition of a byte sequence into
    chunks, a hasher constructed with the seed and updated with each chunk
    in order has the digest the one-shot hash gives on the concatenation
    with that seed, for the 64-bit and for the 128-bit pair. *)
Theorem chunking_invariance (s : Z) (chunks : list (list uint8)) :
  returns
    (for_each MetroHash64_update (map PyString chunks) >>
     MetroHash64_intdigest)
    (MetroHash64___cinit__ (M := P) (Some s)) =
  metrohash64 (M := P) (PyString (concat chunks)) (Some s) /\
  returns
    (for_each MetroHash128_update (map PyString chunks) >>
     MetroHash128_intdigest)
    (MetroHash128___cinit__ (M := P) (Some s)) =
  metrohash128 (M := P) (PyString (concat chunks)) (Some s).
Proof.
  split; [apply fed_digest64 | apply fed_digest128].
Qed.

(** C7: after [initialize(seed)] on a hasher in any state, feeding chunks
    and reading the digest gives the one-shot hash, with that seed, of the
    bytes fed after the reset alone. *)
Theorem reset_discards_prior_input (self64 : MetroHash64 (M := P))
    (self128 : MetroHash128 (M := P)) (seed : Z)
    (chunks : list (list uint8)) :
  returns
    (MetroHash64_initialize (Some seed) >>
     for_each MetroHash64_update (map PyString chunks) >>
     MetroHash64_intdigest) self64 =
  metrohash64 (M := P) (PyString (concat chunks)) (Some seed) /\
  returns
    (MetroHash128_initialize (Some seed) >>
     for_each MetroHash128_update (map PyString chunks) >>
     MetroHash128_intdigest) self128 =
  metrohash128 (M := P) (PyString (concat chunks)) (Some seed).
Proof.
  split.
  - rewrite <- fed_digest64. reflexivity.
  - rewrite <- fed_digest128. reflexivity.
Qed.

(** C4, as the code has it: [initialize] called without a seed resets to
    seed zero, the default of its parameter, whatever seed the hasher was
    constructed with and whatever it was fed before: the digest read
    after feeding chunks is that of a fresh hasher constructed with seed
    zero and fed the same chunks.  On construction and in the one-shot
    functions the seed defaults to zero as well. *)
Theorem initialize_default_seed_is_zero (self64 : MetroHash64 (M := P))
    (self128 : MetroHash128 (M := P)) (chunks : list (list uint8))
    (data : pyobject) :
  returns
    (MetroHash64_initialize None >>
     for_each MetroHash64_update (map PyString chunks) >>
     MetroHash64_intdigest) self64 =
  returns
    (for_each MetroHash64_update (map PyString chunks) >>
     MetroHash64_intdigest) (MetroHash64___cinit__ (M := P) (Some 0)) /\
  returns
    (MetroHash128_initialize None >>
     for_each MetroHash128_update (map PyString chunks) >>
     MetroHash128_intdigest) self128 =
  returns
    (for_each MetroHash128_update (map PyString chunks) >>
     MetroHash128_intdigest) (MetroHash128___cinit__ (M := P) (Some 0)) /\
  MetroHash64___cinit__ (M := P) None = MetroHash64___cinit__ (Some 0) /\
  MetroHash128___cinit__ (M := P) None = MetroHash128___cinit__ (Some 0) /\
  metrohash64 (M := P) data None = metrohash64 (M := P) data (Some 0) /\
  metrohash128 (M := P) data None = metrohash128 (M := P) data (Some 0).
Proof.
  repeat split; reflexivity.
Qed.

Lemma MetroHash64_update_empty (self : MetroHash64 (M := P)) :
  MetroHash64_update (PyString []) self = (Ok tt, self) /\
  MetroHash64_update (PyUnicode []) self = (Ok tt, self).
Proof.
  destruct self as [[s i]].
  rewrite !MetroHash64_update_adapt. cbn [adapt utf8_encode flat_map _m].
  change (CCMetroHash64_Update (Metro := P)) with Primitive.Update.
  rewrite Update_whole. cbn. now rewrite app_nil_r.
Qed.

Lemma MetroHash128_update_empty (self : MetroHash128 (M := P)) :
  MetroHash128_update (PyString []) self = (Ok tt, self) /\
  MetroHash128_update (PyUnicode []) self = (Ok tt, self).
Proof.
  destruct self as [[s i]].
  rewrite !MetroHash128_update_adapt. cbn [adapt utf8_encode flat_map _m128].
  change (CCMetroHash128_Update (Metro := P)) with Primitive.Update.
  rewrite Update_whole. cbn. now rewrite app_nil_r.
Qed.

(** C10: an [update] with the empty byte string, or the empty text, leaves
    the hasher as it was; dropped from or inserted at any point of any
    sequence of updates, from any state, it changes neither the digest
    read afterwards nor the hasher; and the one-shot hash of the empty
    byte string is the digest of a freshly constructed hasher with the
    same seed. *)
Theorem empty_update_is_identity (self64 : MetroHash64 (M := P))
    (self128 : MetroHash128 (M := P)) (pre post : list pyobject)
    (empty : pyobject) (s : option Z) :
  empty = PyString [] \/ empty = PyUnicode [] ->
  MetroHash64_update empty self64 = (Ok tt, self64) /\
  MetroHash128_update empty self128 = (Ok tt, self128) /\
  (for_each MetroHash64_update (pre ++ empty :: post) >>
   MetroHash64_intdigest) self64 =
  (for_each MetroHash64_update (pre ++ post) >>
   MetroHash64_intdigest) self64 /\
  (for_each MetroHash128_update (pre ++ empty :: post) >>
   MetroHash128_intdigest) self128 =
  (for_each MetroHash128_update (pre ++ post) >>
   MetroHash128_intdigest) self128 /\
  metrohash64 (M := P) (PyString []) s =
    returns MetroHash64_intdigest (MetroHash64___cinit__ (M := P) s) /\
  metrohash128 (M := P) (PyString []) s =
    returns MetroHash128_intdigest (MetroHash128___cinit__ (M := P) s).
Proof.
  intros Hempty.
  assert (H64 : forall h, MetroHash64_update (M := P) empty h = (Ok tt, h)).
  { intros h. destruct (MetroHash64_update_empty h).
    destruct Hempty; subst empty; assumption. }
  assert (H128 : forall h, MetroHash128_update (M := P) empty h = (Ok tt, h)).
  { intros h. destruct (MetroHash128_update_empty h).
    destruct Hempty; subst empty; assumption. }
  split; [apply H64|]. split; [apply H128|].
  split; [|split; [|split]].
  - unfold seq, bind. now rewrite for_each_skip.
  - unfold seq, bind. now rewrite for_each_skip.
  - reflexivity.
  - reflexivity.
Qed.

End OverPrimitive.

(** The premise and the statement of C10 on a run: an empty text between
    two chunks. *)
Lemma empty_update_is_identity_witness :
  (PyUnicode [] = PyString [] \/ PyUnicode [] = PyUnicode []) /\
  returns
    (for_each (MetroHash64_update (M := Primitive.sample))
       ([PyString [x61]] ++ PyUnicode [] :: [PyString [x62]]) >>
     MetroHash64_intdigest) (MetroHash64___cinit__ (Some 1)) = Ok 4098.
Proof.
  split; [right; reflexivity|].
  pose proof (empty_update_is_identity Primitive.sample_mix64
                Primitive.sample_mix128 (MetroHash64___cinit__ (Some 1))
                (MetroHash128___cinit__ (Some 1))
                [PyString [x61]] [PyString [x62]] (PyUnicode []) None
                (or_intror eq_refl)) as (_ & _ & H & _).
  unfold returns. fold Primitive.sample in H. rewrite H.
  vm_compute. reflexivity.
Defined.

(** C4, as the claim has it, fails: a hasher constructed with seed 1 and
    reset by [initialize()] hashes with seed 0; on the sample arithmetic
    its digest of one byte differs from that of a fresh hasher with seed
    1. *)
Lemma initialize_keeps_seed_counterexample :
  Primitive.acc_seed
    (_m (leaves (MetroHash64_initialize (M := Primitive.sample) None)
           (MetroHash64___cinit__ (Some 1)))) = 0 /\
  returns
    (MetroHash64_initialize (M := Primitive.sample) None >>
     MetroHash64_update (PyString [x61]) >> MetroHash64_intdigest)
    (MetroHash64___cinit__ (Some 1)) = Ok 98 /\
  returns
    (MetroHash64_update (M := Primitive.sample) (PyString [x61]) >>
     MetroHash64_intdigest)
    (MetroHash64___cinit__ (Some 1)) = Ok 129 /\
  ~ (forall (s : Z) (bytes : list uint8),
       returns
         (MetroHash64_initialize (M := Primitive.sample) None >>
          MetroHash64_update (PyString bytes) >> MetroHash64_intdigest)
         (MetroHash64___cinit__ (Some s)) =
       returns
         (MetroHash64_update (M := Primitive.sample) (PyString bytes) >>
          MetroHash64_intdigest)
         (MetroHash64___cinit__ (Some s))).
Proof.
  split; [reflexivity|]. split; [reflexivity|]. split; [reflexivity|].
  intros H. specialize (H 1 [x61]). vm_compute in H. discriminate H.
Qed.

(** * Further properties of the wrapper *)

(** ** What the entry points accept and feed *)

Lemma adapt_byte_view (data : pyobject) :
  unsupported data = false -> adapt data = Ok (byte_view data).
Proof.
  destruct data; cbn; intros H; try discriminate H; reflexivity.
Qed.

Lemma adapt_or_unsupported (data : pyobject) :
  (unsupported data = false /\ adapt data = Ok (byte_view data)) \/
  (unsupported data = true /\ exists e, adapt data = Raise e).
Proof.
  destruct (unsupported data) eqn:E.
  - right. split; [reflexivity|].
    destruct (adapt_unsupported data E) as (e & He & _). now exists e.
  - left. split; [reflexivity|]. now apply adapt_byte_view.
Qed.

(** X1: the four entry points accept the same values of [data]: each of
    [metrohash64] and [metrohash128], called from Python, returns normally
    exactly when the seed is within [uint64] (or left out) and [data] is
    a text, a byte string or an object that gives a view of its buffer;
    each of [MetroHash64.update] and [MetroHash128.update] returns
    normally exactly when [data] is such a value, whatever the state of
    the hasher. *)
Theorem entry_points_accept_the_same {M : Metro} (data : pyobject)
    (seed : option Z) (h64 : MetroHash64) (h128 : MetroHash128) :
  ((exists v, py_metrohash64 data seed = Ok v) <->
     seed_in_range seed = true /\ unsupported data = false) /\
  ((exists v, py_metrohash128 data seed = Ok v) <->
     seed_in_range seed = true /\ unsupported data = false) /\
  (returns (MetroHash64_update data) h64 = Ok tt <->
     unsupported data = false) /\
  (returns (MetroHash128_update data) h128 = Ok tt <->
     unsupported data = false).
Proof.
  unfold returns, py_metrohash64, py_metrohash128, seed_from_python.
  rewrite MetroHash64_update_adapt, MetroHash128_update_adapt.
  destruct (seed_in_range seed);
    [rewrite metrohash64_adapt, metrohash128_adapt|];
    (destruct (adapt_or_unsupported data) as [[Hu Ha]|[Hu [e Ha]]];
     rewrite ?Ha, Hu; cbn).
  all: split; [|split; [|split]]; split; intros Hx;
    repeat match goal with
           | H : exists _, _ |- _ => destruct H
           | H : _ /\ _ |- _ => destruct H
           end;
    try discriminate; try reflexivity; try (split; reflexivity);
    eexists; reflexivity.
Qed.

(** X2: an object with a buffer is hashed as the byte string of its
    memory: the result does not depend on the type of the exporter, for
    the one-shot functions and for [update]. *)
Theorem buffer_equals_its_bytes {M : Metro} (tp : string)
    (mem : list uint8) (s : option Z) (h64 : MetroHash64)
    (h128 : MetroHash128) :
  metrohash64 (PyBuffer tp mem) s = metrohash64 (PyString mem) s /\
  metrohash128 (PyBuffer tp mem) s = metrohash128 (PyString mem) s /\
  MetroHash64_update (PyBuffer tp mem) h64 =
    MetroHash64_update (PyString mem) h64 /\
  MetroHash128_update (PyBuffer tp mem) h128 =
    MetroHash128_update (PyString mem) h128.
Proof.
  rewrite !metrohash64_adapt, !metrohash128_adapt,
    !MetroHash64_update_adapt, !MetroHash128_update_adapt.
  repeat split; reflexivity.
Qed.

(** The instance after the primitive's [Update] on the view of each
    chunk, in order. *)
Lemma feed_supported64 {M : Metro} (chunks : list pyobject)
    (self : MetroHash64) :
  Forall (fun d => unsupported d = false) chunks ->
  for_each MetroHash64_update chunks self =
  (Ok tt,
   {| _m := fold_left
              (fun m d =>
                 CCMetroHash64_Update (byte_view d) (buf_len (byte_view d)) m)
              chunks (_m self) |}).
Proof.
  intros Hall. revert self.
  induction Hall as [|d chunks Hd _ IH]; intros [m].
  - reflexivity.
  - cbn [for_each fold_left]. unfold seq, bind.
    rewrite MetroHash64_update_adapt, (adapt_byte_view d Hd).
    apply IH.
Qed.

Lemma feed_supported128 {M : Metro} (chunks : list pyobject)
    (self : MetroHash128) :
  Forall (fun d => unsupported d = false) chunks ->
  for_each MetroHash128_update chunks self =
  (Ok tt,
   {| _m128 := fold_left
                 (fun m d =>
                    CCMetroHash128_Update (byte_view d)
                      (buf_len (byte_view d)) m)
                 chunks (_m128 self) |}).
Proof.
  intros Hall. revert self.
  induction Hall as [|d chunks Hd _ IH]; intros [m].
  - reflexivity.
  - cbn [for_each fold_left]. unfold seq, bind.
    rewrite MetroHash128_update_adapt, (adapt_byte_view d Hd).
    apply IH.
Qed.

(** X3: a sequence of [update] calls on accepted values, of any mix of
    text, byte strings and buffers, makes one call of the primitive's
    [Update] per value, in order, each with the whole view and its length;
    the digest read next is the conversion of what [Finalize] writes for
    the instance so fed. *)
Theorem updates_feed_views_in_order {M : Metro} (chunks : list pyobject)
    (h64 : MetroHash64) (h128 : MetroHash128) :
  Forall (fun d => unsupported d = false) chunks ->
  let fed64 :=
    fold_left
      (fun m d =>
         CCMetroHash64_Update (byte_view d) (buf_len (byte_view d)) m)
      chunks (_m h64) in
  let fed128 :=
    fold_left
      (fun m d =>
         CCMetroHash128_Update (byte_view d) (buf_len (byte_view d)) m)
      chunks (_m128 h128) in
  for_each MetroHash64_update chunks h64 = (Ok tt, {| _m := fed64 |}) /\
  for_each MetroHash128_update chunks h128 = (Ok tt, {| _m128 := fed128 |}) /\
  returns (for_each MetroHash64_update chunks >> MetroHash64_intdigest) h64 =
    Ok (c_bytes2int64 (fst (CCMetroHash64_Finalize fed64))) /\
  returns (for_each MetroHash128_update chunks >> MetroHash128_intdigest)
    h128 =
    Ok (2 ^ 64 * first (c_bytes2int128 (fst (CCMetroHash128_Finalize fed128)))
        + second (c_bytes2int128 (fst (CCMetroHash128_Finalize fed128)))).
Proof.
  intros Hall fed64 fed128.
  pose proof (feed_supported64 chunks h64 Hall) as H64.
  pose proof (feed_supported128 chunks h128 Hall) as H128.
  fold fed64 in H64. fold fed128 in H128.
  split; [exact H64|]. split; [exact H128|].
  unfold returns, seq, bind. rewrite H64, H128.
  unfold MetroHash64_intdigest, MetroHash128_intdigest. cbn [_m _m128].
  destruct (CCMetroHash64_Finalize fed64) as [b64 m64].
  destruct (CCMetroHash128_Finalize fed128) as [b128 m128].
  split; reflexivity.
Qed.

Lemma updates_feed_views_in_order_witness :
  Forall (fun d => unsupported d = false)
    [PyUnicode [0xe9]; PyBuffer "bytearray" [x62]; PyString []] /\
  for_each (MetroHash64_update (M := Primitive.sample))
    [PyUnicode [0xe9]; PyBuffer "bytearray" [x62]; PyString []]
    (MetroHash64___cinit__ (Some 1)) =
  (Ok tt,
   @Build_MetroHash64 Primitive.sample
     {| Primitive.acc_seed := 1;
        Primitive.acc_input := [xc3; xa9; x62] |}).
Proof.
  assert (H : Forall (fun d => unsupported d = false)
                [PyUnicode [0xe9]; PyBuffer "bytearray" [x62]; PyString []])
    by (repeat constructor).
  split; [exact H|].
  destruct (updates_feed_views_in_order (M := Primitive.sample)
              [PyUnicode [0xe9]; PyBuffer "bytearray" [x62]; PyString []]
              (MetroHash64___cinit__ (Some 1))
              (MetroHash128___cinit__ (Some 1)) H) as [H64 _].
  rewrite H64. reflexivity.
Defined.

(** X4: a sequence of [update] calls stops at the first value that is not
    accepted: the call raises for that value (the type error of the
    wrapper when the value fails the three type tests, the exception of
    [PyObject_GetBuffer] when its type has the buffer protocol but the
    view is refused), the hasher holds what the accepted values before it
    fed and nothing else, and the values after it are not fed. *)
Theorem updates_stop_at_first_rejected {M : Metro}
    (pre post : list pyobject) (bad : pyobject) (h64 : MetroHash64)
    (h128 : MetroHash128) :
  Forall (fun d => unsupported d = false) pre ->
  unsupported bad = true ->
  exists e : pyexc,
    for_each MetroHash64_update (pre ++ bad :: post) h64 =
      (Raise e, leaves (for_each MetroHash64_update pre) h64) /\
    for_each MetroHash128_update (pre ++ bad :: post) h128 =
      (Raise e, leaves (for_each MetroHash128_update pre) h128) /\
    (fails_type_tests bad = true ->
     e = _type_error "data" ["basestring"; "buffer"] bad) /\
    (PyObject_CheckBuffer bad = true -> PyObject_GetBuffer bad = Raise e).
Proof.
  intros Hpre Hbad.
  destruct (adapt_unsupported bad Hbad) as (e & Ha & Htype & Hview).
  exists e. unfold leaves.
  rewrite !for_each_app. unfold seq, bind.
  rewrite (feed_supported64 pre h64 Hpre), (feed_supported128 pre h128 Hpre).
  cbn [for_each fst snd]. unfold seq, bind.
  rewrite MetroHash64_update_adapt, MetroHash128_update_adapt, Ha.
  repeat split; try reflexivity; assumption.
Qed.

Lemma updates_stop_at_first_rejected_witness :
  Forall (fun d => unsupported d = false) [PyString [x61]] /\
  unsupported (PyInt 7) = true /\
  unsupported (PyNoSimpleBuffer (builtin_type "memoryview")
                 (BufferError "underlying buffer is not C-contiguous"))
    = true /\
  for_each (MetroHash64_update (M := Primitive.sample))
    ([PyString [x61]] ++ PyInt 7 :: [PyString [x62]])
    (MetroHash64___cinit__ (Some 1)) =
  (Raise (TypeError
     "Argument 'data' has incorrect type (expected ['basestring', 'buffer'], got <type 'int'>)"),
   @Build_MetroHash64 Primitive.sample
     {| Primitive.acc_seed := 1; Primitive.acc_input := [x61] |}) /\
  for_each (MetroHash64_update (M := Primitive.sample))
    ([PyString [x61]] ++
     PyNoSimpleBuffer (builtin_type "memoryview")
       (BufferError "underlying buffer is not C-contiguous")
     :: [PyString [x62]])
    (MetroHash64___cinit__ (Some 1)) =
  (Raise (BufferError "underlying buffer is not C-contiguous"),
   @Build_MetroHash64 Primitive.sample
     {| Primitive.acc_seed := 1; Primitive.acc_input := [x61] |}).
Proof.
  assert (H : Forall (fun d => unsupported d = false) [PyString [x61]])
    by (repeat constructor).
  split; [exact H|]. split; [reflexivity|]. split; [reflexivity|]. split.
  - destruct (updates_stop_at_first_rejected (M := Primitive.sample)
                [PyString [x61]] [PyString [x62]] (PyInt 7)
                (MetroHash64___cinit__ (Some 1))
                (MetroHash128___cinit__ (Some 1)) H eq_refl)
      as (e & H64 & _ & He & _).
    rewrite H64, (He eq_refl). reflexivity.
  - destruct (updates_stop_at_first_rejected (M := Primitive.sample)
                [PyString [x61]] [PyString [x62]]
                (PyNoSimpleBuffer (builtin_type "memoryview")
                   (BufferError "underlying buffer is not C-contiguous"))
                (MetroHash64___cinit__ (Some 1))
                (MetroHash128___cinit__ (Some 1)) H eq_refl)
      as (e & H64 & _ & _ & He).
    rewrite H64. specialize (He eq_refl). cbn in He.
    injection He as <-. reflexivity.
Defined.

Lemma to_uint8_uint8_val (b : uint8) : to_uint8 (uint8_val b) = b.
Proof.
  unfold to_uint8, uint8_val.
  pose proof (Byte.to_N_bounded b) as Hb.
  rewrite Z.mod_small by lia.
  rewrite N2Z.id, Byte.of_to_N. reflexivity.
Qed.

Lemma utf8_encode_ascii (b : list uint8) :
  Forall (fun x => uint8_val x < 0x80) b ->
  utf8_encode (map uint8_val b) = b.
Proof.
  induction 1 as [|x b Hx _ IH]; [reflexivity|].
  cbn [map utf8_encode flat_map]. fold (utf8_encode (map uint8_val b)).
  rewrite IH. unfold utf8_char.
  destruct (Z.ltb_spec (uint8_val x) 0x80) as [_|Hge]; [|lia].
  cbn [app]. now rewrite to_uint8_uint8_val.
Qed.

(** X5: a text made of ASCII characters is hashed as the byte string of
    its character codes: when every byte of [b] is below 128, hashing the
    text with those codes gives what hashing [b] gives, in the one-shot
    functions and in [update]. *)
Theorem ascii_text_equals_byte_string {M : Metro} (b : list uint8)
    (s : option Z) (h64 : MetroHash64) (h128 : MetroHash128) :
  Forall (fun x => uint8_val x < 0x80) b ->
  metrohash64 (PyUnicode (map uint8_val b)) s = metrohash64 (PyString b) s /\
  metrohash128 (PyUnicode (map uint8_val b)) s =
    metrohash128 (PyString b) s /\
  MetroHash64_update (PyUnicode (map uint8_val b)) h64 =
    MetroHash64_update (PyString b) h64 /\
  MetroHash128_update (PyUnicode (map uint8_val b)) h128 =
    MetroHash128_update (PyString b) h128.
Proof.
  intros Hb.
  rewrite !metrohash64_adapt, !metrohash128_adapt,
    !MetroHash64_update_adapt, !MetroHash128_update_adapt.
  cbn [adapt]. rewrite (utf8_encode_ascii b Hb).
  repeat split; reflexivity.
Qed.

Lemma ascii_text_equals_byte_string_witness :
  Forall (fun x => uint8_val x < 0x80) [x61; x62; x7f] /\
  metrohash64 (M := Primitive.sample) (PyUnicode [0x61; 0x62; 0x7f])
    (Some 1) =
  metrohash64 (M := Primitive.sample) (PyString [x61; x62; x7f]) (Some 1).
Proof.
  assert (H : Forall (fun x => uint8_val x < 0x80) [x61; x62; x7f])
    by (repeat constructor).
  split; [exact H|].
  exact (proj1 (ascii_text_equals_byte_string (M := Primitive.sample)
                  [x61; x62; x7f] (Some 1) (MetroHash64___cinit__ None)
                  (MetroHash128___cinit__ None) H)).
Defined.

Lemma assemble_injective (a b c d : Z) :
  is_uint64 b -> is_uint64 d ->
  2 ^ 64 * a + b = 2 ^ 64 * c + d -> a = c /\ b = d.
Proof.
  intros Hb Hd Heq.
  destruct (assemble_high_low a b Hb) as [Ha1 Hb1].
  destruct (assemble_high_low c d Hd) as [Hc1 Hd1].
  rewrite Heq in Ha1, Hb1. split; congruence.
Qed.

(** X6: the 128-bit integer keeps both words of the primitive: two calls
    of [metrohash128] return the same integer exactly when the primitive
    returned the same pair, and likewise two reads of
    [MetroHash128.intdigest]. *)
Theorem metrohash128_same_iff_same_pair {M : Metro} (b1 b2 : list uint8)
    (s1 s2 : option Z) (h1 h2 : MetroHash128) :
  (metrohash128 (PyString b1) s1 = metrohash128 (PyString b2) s2 <->
   c_metrohash128 b1 (buf_len b1) (seed_arg s1) =
   c_metrohash128 b2 (buf_len b2) (seed_arg s2)) /\
  (returns MetroHash128_intdigest h1 = returns MetroHash128_intdigest h2 <->
   c_bytes2int128 (fst (CCMetroHash128_Finalize (_m128 h1))) =
   c_bytes2int128 (fst (CCMetroHash128_Finalize (_m128 h2)))).
Proof.
  split.
  - rewrite !metrohash128_adapt. cbn [adapt]. cbv zeta.
    pose proof (c_metrohash128_uint64 b1 (buf_len b1) (seed_arg s1)) as [_ H1].
    pose proof (c_metrohash128_uint64 b2 (buf_len b2) (seed_arg s2)) as [_ H2].
    destruct (c_metrohash128 b1 (buf_len b1) (seed_arg s1)) as [f1 w1].
    destruct (c_metrohash128 b2 (buf_len b2) (seed_arg s2)) as [f2 w2].
    cbn [first second fst snd] in *. split.
    + intros H. injection H as H.
      destruct (assemble_injective f1 w1 f2 w2 H1 H2 H). congruence.
    + intros H. injection H as -> ->. reflexivity.
  - unfold returns, MetroHash128_intdigest.
    destruct (CCMetroHash128_Finalize (_m128 h1)) as [a1 m1].
    destruct (CCMetroHash128_Finalize (_m128 h2)) as [a2 m2].
    cbn [fst].
    pose proof (c_bytes2int128_uint64 a1) as [_ H1].
    pose proof (c_bytes2int128_uint64 a2) as [_ H2].
    destruct (c_bytes2int128 a1) as [f1 w1].
    destruct (c_bytes2int128 a2) as [f2 w2].
    cbn [first second fst snd] in *. split.
    + intros H. injection H as H.
      destruct (assemble_injective f1 w1 f2 w2 H1 H2 H). congruence.
    + intros H. injection H as -> ->. reflexivity.
Qed.

(** ** References taken and given back *)

Lemma GetBuffer_run (o : positive) (ob : Mem.PyStringObject) (h : Mem.heap) :
  h !! o = Some ob ->
  Mem.GetBuffer o h =
  Mem.Done
    {| Mem.buf := o; Mem.len := buf_len (Mem.ob_bytes ob); Mem.obj := o |}
    (<[o := {| Mem.ob_refcnt := Mem.ob_refcnt ob + 1;
               Mem.ob_bytes := Mem.ob_bytes ob |}]> h).
Proof.
  intros Ho. unfold Mem.GetBuffer, Mem.mbind, Mem.Py_INCREF, Mem.mret.
  now rewrite Ho.
Qed.

(** X7: in the text branch of the one-shot functions the byte string
    holding the UTF-8 encoding is read by the primitive while it is still
    allocated, and it is deallocated by the time the function returns:
    the call returns the value of the function and leaves the heap as it
    found it. *)
Theorem oneshot_text_buffer_released {M : Metro} (chars : list Z) (seed : Z)
    (h : Mem.heap) :
  exists v64 v128 : Z,
    metrohash64 (PyUnicode chars) (Some seed) = Ok v64 /\
    metrohash128 (PyUnicode chars) (Some seed) = Ok v128 /\
    Paths.metrohash64_text (PyUnicode chars) seed h = Mem.Done v64 h /\
    Paths.metrohash128_text (PyUnicode chars) seed h = Mem.Done v128 h.
Proof.
  pose proof (fresh_not_allocated h) as Hfresh.
  eexists _, _. split; [reflexivity|]. split; [reflexivity|].
  split.
  - unfold Paths.metrohash64_text, Mem.mbind at 1, Mem.AsUTF8String.
    unfold Mem.mbind at 1.
    rewrite (GetBuffer_run _ _ _ (lookup_insert_eq _ _ _)).
    unfold Mem.mbind, Mem.load, Mem.Py_DECREF, Mem.mret.
    rewrite !lookup_insert_eq. cbn [Mem.ob_refcnt Mem.ob_bytes].
    change (1 + 1 - 1) with 1. change (1 =? 0) with false. cbv iota.
    rewrite lookup_insert_eq. cbn [Mem.ob_refcnt Mem.ob_bytes].
    change (1 - 1 =? 0) with true. cbv iota.
    rewrite !insert_insert_eq.
    now rewrite delete_insert_id by exact Hfresh.
  - unfold Paths.metrohash128_text, Mem.mbind at 1, Mem.AsUTF8String.
    unfold Mem.mbind at 1.
    rewrite (GetBuffer_run _ _ _ (lookup_insert_eq _ _ _)).
    unfold Mem.mbind, Mem.load, Mem.Py_DECREF, Mem.mret.
    rewrite !lookup_insert_eq. cbn [Mem.ob_refcnt Mem.ob_bytes].
    change (1 + 1 - 1) with 1. change (1 =? 0) with false. cbv iota.
    rewrite lookup_insert_eq. cbn [Mem.ob_refcnt Mem.ob_bytes].
    change (1 - 1 =? 0) with true. cbv iota.
    rewrite !insert_insert_eq.
    now rewrite delete_insert_id by exact Hfresh.
Qed.

(** X8: the buffer branch takes a view of [data] and never releases it:
    each call of a one-shot function or of [update] on an object with a
    buffer returns what it is to return and leaves the object with one
    reference more than before.  An object whose only reference the caller
    holds is therefore not deallocated when the caller gives that
    reference up after the call, as it would have been before it. *)
Theorem buffer_branch_keeps_a_reference {M : Metro} (o : positive)
    (ob : Mem.PyStringObject) (h : Mem.heap) (seed : Z)
    (h64 : MetroHash64) (h128 : MetroHash128) :
  h !! o = Some ob ->
  let bytes := Mem.ob_bytes ob in
  let h' := <[o := {| Mem.ob_refcnt := Mem.ob_refcnt ob + 1;
                      Mem.ob_bytes := bytes |}]> h in
  Paths.metrohash64_buffer o seed h =
    Mem.Done (c_metrohash64 bytes (buf_len bytes) seed) h' /\
  Paths.metrohash128_buffer o seed h =
    Mem.Done
      (2 ^ 64 * first (c_metrohash128 bytes (buf_len bytes) seed)
       + second (c_metrohash128 bytes (buf_len bytes) seed)) h' /\
  Paths.MetroHash64_update_buffer o h64 h =
    Mem.Done {| _m := CCMetroHash64_Update bytes (buf_len bytes) (_m h64) |}
      h' /\
  Paths.MetroHash128_update_buffer o h128 h =
    Mem.Done
      {| _m128 := CCMetroHash128_Update bytes (buf_len bytes) (_m128 h128) |}
      h' /\
  (Mem.ob_refcnt ob = 1 ->
   Mem.Py_DECREF o h = Mem.Done tt (delete o h) /\
   Mem.Py_DECREF o h' = Mem.Done tt h).
Proof.
  intros Ho bytes h'.
  pose proof (GetBuffer_run o ob h Ho) as Hview. fold bytes h' in Hview.
  assert (Hload : Mem.load o h' = Mem.Done bytes h').
  { unfold Mem.load, h'. now rewrite lookup_insert_eq. }
  split; [|split; [|split; [|split]]].
  - unfold Paths.metrohash64_buffer, Mem.mbind at 1. rewrite Hview.
    cbn [Mem.buf Mem.len]. unfold Mem.mbind. now rewrite Hload.
  - unfold Paths.metrohash128_buffer, Mem.mbind at 1. rewrite Hview.
    cbn [Mem.buf Mem.len]. unfold Mem.mbind. now rewrite Hload.
  - unfold Paths.MetroHash64_update_buffer, Mem.mbind at 1. rewrite Hview.
    cbn [Mem.buf Mem.len]. unfold Mem.mbind. now rewrite Hload.
  - unfold Paths.MetroHash128_update_buffer, Mem.mbind at 1. rewrite Hview.
    cbn [Mem.buf Mem.len]. unfold Mem.mbind. now rewrite Hload.
  - intros Hone. unfold Mem.Py_DECREF. split.
    + rewrite Ho, Hone. reflexivity.
    + unfold h'. rewrite lookup_insert_eq. cbn [Mem.ob_refcnt Mem.ob_bytes].
      rewrite Hone. cbn. rewrite insert_insert_eq.
      f_equal. apply insert_id. rewrite Ho. f_equal.
      destruct ob as [n b]. cbn in *. subst n. reflexivity.
Qed.

Lemma buffer_branch_keeps_a_reference_witness :
  ({[ 5%positive := {| Mem.ob_refcnt := 1; Mem.ob_bytes := [x61] |} ]}
     : Mem.heap) !! 5%positive =
    Some {| Mem.ob_refcnt := 1; Mem.ob_bytes := [x61] |} /\
  Paths.MetroHash64_update_buffer (M := Primitive.sample) 5%positive
    (MetroHash64___cinit__ (Some 1))
    {[ 5%positive := {| Mem.ob_refcnt := 1; Mem.ob_bytes := [x61] |} ]} =
  Mem.Done
    (@Build_MetroHash64 Primitive.sample
       {| Primitive.acc_seed := 1; Primitive.acc_input := [x61] |})
    (<[ 5%positive := {| Mem.ob_refcnt := 2; Mem.ob_bytes := [x61] |} ]>
       {[ 5%positive := {| Mem.ob_refcnt := 1; Mem.ob_bytes := [x61] |} ]}).
Proof.
  assert (H : ({[ 5%positive :=
                    {| Mem.ob_refcnt := 1; Mem.ob_bytes := [x61] |} ]}
                 : Mem.heap) !! 5%positive =
              Some {| Mem.ob_refcnt := 1; Mem.ob_bytes := [x61] |})
    by reflexivity.
  split; [exact H|].
  destruct (buffer_branch_keeps_a_reference (M := Primitive.sample)
              5%positive _ _ 0 (MetroHash64___cinit__ (Some 1))
              (MetroHash128___cinit__ (Some 1)) H)
    as (_ & _ & H64 & _).
  rewrite H64. reflexivity.
Defined.

(** ** The lifetime of the primitive instance *)
Section ObjectFacts.
Variable T : Type.
Variable construct : Z -> T.
Variable Initialize : Z -> T -> T.
Variable Update : list uint8 -> Z -> T -> T.
Variable digest : T -> Z * T.

Local Abbreviation run_call :=
  (Lifetime.run_call T Initialize Update digest).
Local Abbreviation run_calls :=
  (Lifetime.run_calls T Initialize Update digest).

Lemma through_m_allocated {A : Type} (f : T -> A * T) (a : positive) (m : T)
    (h : gmap positive T) :
  h !! a = Some m ->
  Lifetime.through_m T f {| Lifetime.ptr := Some a |} h =
  Lifetime.Return (fst (f m)) {| Lifetime.ptr := Some a |}
    (<[a := snd (f m)]> h).
Proof.
  intros Ha. unfold Lifetime.through_m. cbn [Lifetime.ptr]. rewrite Ha.
  now destruct (f m).
Qed.

(** A call on a hasher whose instance is allocated leaves the pointer as
    it is and touches the store at that instance only. *)
Lemma run_call_allocated (c : Lifetime.call) (a : positive) (m : T)
    (h : gmap positive T) :
  h !! a = Some m ->
  exists m' : T,
    run_call c {| Lifetime.ptr := Some a |} h =
    Some ({| Lifetime.ptr := Some a |}, <[a := m']> h).
Proof.
  intros Ha. destruct c as [seed|data|]; cbn [Lifetime.run_call].
  - unfold Lifetime.initialize.
    rewrite (through_m_allocated _ a m h Ha). eexists. reflexivity.
  - unfold Lifetime.update.
    destruct data; cbn; rewrite ?Ha; cbn;
      first [ eexists; reflexivity | exists m; now rewrite insert_id ].
  - unfold Lifetime.intdigest.
    rewrite (through_m_allocated _ a m h Ha). eexists. reflexivity.
Qed.

Lemma run_calls_allocated (cs : list Lifetime.call) (a : positive) (m : T)
    (h : gmap positive T) :
  exists m' : T,
    run_calls cs {| Lifetime.ptr := Some a |} (<[a := m]> h) =
    Some ({| Lifetime.ptr := Some a |}, <[a := m']> h).
Proof.
  revert m. induction cs as [|c cs IH]; intros m.
  - exists m. reflexivity.
  - cbn [Lifetime.run_calls].
    destruct (run_call_allocated c a m (<[a := m]> h)
                (lookup_insert_eq h a m)) as [m1 H1].
    rewrite H1, insert_insert_eq. apply IH.
Qed.

Lemma lifecycle (seed : option Z) (cs : list Lifetime.call)
    (self : Lifetime.hasher) (h : gmap positive T) :
  exists (a : positive) (m : T),
    h !! a = None /\
    Lifetime.__cinit__ T construct seed self h =
      Lifetime.Return tt {| Lifetime.ptr := Some a |}
        (<[a := construct (seed_arg seed)]> h) /\
    run_calls cs {| Lifetime.ptr := Some a |}
      (<[a := construct (seed_arg seed)]> h) =
      Some ({| Lifetime.ptr := Some a |}, <[a := m]> h) /\
    Lifetime.__dealloc__ T {| Lifetime.ptr := Some a |} (<[a := m]> h) =
      Lifetime.Return tt {| Lifetime.ptr := None |} h.
Proof.
  assert (Hfresh : h !! fresh (dom h) = None)
    by (apply not_elem_of_dom, is_fresh).
  destruct (run_calls_allocated cs (fresh (dom h))
              (construct (seed_arg seed)) h) as [m Hm].
  exists (fresh (dom h)), m.
  split; [exact Hfresh|]. split; [reflexivity|]. split; [exact Hm|].
  unfold Lifetime.__dealloc__. cbn [Lifetime.ptr].
  rewrite lookup_insert_eq. now rewrite delete_insert_id.
Qed.

End ObjectFacts.

(** X9: a hasher of either class releases its instance of the primitive
    exactly once: construction allocates one instance at a fresh address;
    initialize, update and intdigest, in any number and order and whether
    or not an update raises, follow the pointer without fault, leave it
    unchanged and touch no other instance; and [__dealloc__] then deletes
    that instance, so the store is what it was before construction. *)
Theorem instance_released_once {M : Metro} (seed : option Z)
    (cs : list Lifetime.call) (self : Lifetime.hasher)
    (h64 : gmap positive CCMetroHash64)
    (h128 : gmap positive CCMetroHash128) :
  (exists (a : positive) (m : CCMetroHash64),
     h64 !! a = None /\
     Lifetime.__cinit__ CCMetroHash64 CCMetroHash64_new seed self h64 =
       Lifetime.Return tt {| Lifetime.ptr := Some a |}
         (<[a := CCMetroHash64_new (seed_arg seed)]> h64) /\
     Lifetime.run_calls CCMetroHash64 CCMetroHash64_Initialize
       CCMetroHash64_Update Lifetime.digest64 cs
       {| Lifetime.ptr := Some a |}
       (<[a := CCMetroHash64_new (seed_arg seed)]> h64) =
       Some ({| Lifetime.ptr := Some a |}, <[a := m]> h64) /\
     Lifetime.__dealloc__ CCMetroHash64 {| Lifetime.ptr := Some a |}
       (<[a := m]> h64) =
       Lifetime.Return tt {| Lifetime.ptr := None |} h64) /\
  (exists (a : positive) (m : CCMetroHash128),
     h128 !! a = None /\
     Lifetime.__cinit__ CCMetroHash128 CCMetroHash128_new seed self h128 =
       Lifetime.Return tt {| Lifetime.ptr := Some a |}
         (<[a := CCMetroHash128_new (seed_arg seed)]> h128) /\
     Lifetime.run_calls CCMetroHash128 CCMetroHash128_Initialize
       CCMetroHash128_Update Lifetime.digest128 cs
       {| Lifetime.ptr := Some a |}
       (<[a := CCMetroHash128_new (seed_arg seed)]> h128) =
       Some ({| Lifetime.ptr := Some a |}, <[a := m]> h128) /\
     Lifetime.__dealloc__ CCMetroHash128 {| Lifetime.ptr := Some a |}
       (<[a := m]> h128) =
       Lifetime.Return tt {| Lifetime.ptr := None |} h128).
Proof.
  split; apply lifecycle.
Qed.

(** X10: constructing a hasher from Python either gives a hasher that
    owns one instance of the primitive, allocated at a fresh address and
    constructed with the seed (zero when left out), or, when the seed is
    outside [uint64], raises [OverflowError] before anything is
    allocated: [__dealloc__] then runs on a hasher whose pointer is still
    [NULL], deletes nothing and leaves the store as it was. *)
Theorem construction_allocates_or_raises (T : Type) (construct : Z -> T)
    (seed : option Z) (h : gmap positive T) :
  (seed_in_range seed = true ->
   h !! fresh (dom h) = None /\
   Lifetime.tp_new T construct seed h =
     Lifetime.Return tt {| Lifetime.ptr := Some (fresh (dom h)) |}
       (<[fresh (dom h) := construct (seed_arg seed)]> h)) /\
  (seed_in_range seed = false ->
   Lifetime.tp_new T construct seed h =
     Lifetime.Raised (Lifetime.Exc OverflowError)
       {| Lifetime.ptr := None |} h).
Proof.
  unfold Lifetime.tp_new, seed_from_python.
  split; intros Hseed; rewrite Hseed.
  - split; [apply not_elem_of_dom, is_fresh|reflexivity].
  - reflexivity.
Qed.

Lemma construction_allocates_or_raises_witness :
  seed_in_range (Some (2 ^ 64 - 1)) = true /\
  seed_in_range (Some (2 ^ 64)) = false /\
  seed_in_range (Some (-1)) = false /\
  Lifetime.tp_new Primitive.accumulator Primitive.construct
    (Some (2 ^ 64)) {[ 1%positive := Primitive.construct 5 ]} =
  Lifetime.Raised (Lifetime.Exc OverflowError) {| Lifetime.ptr := None |}
    {[ 1%positive := Primitive.construct 5 ]}.
Proof.
  split; [reflexivity|]. split; [reflexivity|]. split; [reflexivity|].
  exact (proj2 (construction_allocates_or_raises Primitive.accumulator
                  Primitive.construct (Some (2 ^ 64))
                  {[ 1%positive := Primitive.construct 5 ]}) eq_refl).
Defined.

(** X11: on a hasher whose instance is allocated, each method does to the
    instance in the store what the method does to the hasher seen as the
    instance alone: initialize, update and intdigest return or raise the
    same, store the instance the method leaves, and a rejected update
    leaves the store untouched; for both classes. *)
Theorem methods_act_on_the_instance {M : Metro} (a : positive)
    (m64 : CCMetroHash64) (h64 : gmap positive CCMetroHash64)
    (m128 : CCMetroHash128) (h128 : gmap positive CCMetroHash128)
    (seed : option Z) (data : pyobject) :
  h64 !! a = Some m64 ->
  h128 !! a = Some m128 ->
  let self := {| Lifetime.ptr := Some a |} in
  Lifetime.initialize CCMetroHash64 CCMetroHash64_Initialize seed self h64 =
    Lifetime.Return tt self
      (<[a := _m (leaves (MetroHash64_initialize seed) {| _m := m64 |})]>
         h64) /\
  Lifetime.update CCMetroHash64 CCMetroHash64_Update data self h64 =
    match MetroHash64_update data {| _m := m64 |} with
    | (Ok _, s) => Lifetime.Return tt self (<[a := _m s]> h64)
    | (Raise e, _) => Lifetime.Raised (Lifetime.Exc e) self h64
    end /\
  Lifetime.intdigest CCMetroHash64 Lifetime.digest64 self h64 =
    match MetroHash64_intdigest {| _m := m64 |} with
    | (Ok v, s) => Lifetime.Return v self (<[a := _m s]> h64)
    | (Raise e, _) => Lifetime.Raised (Lifetime.Exc e) self h64
    end /\
  Lifetime.initialize CCMetroHash128 CCMetroHash128_Initialize seed self
    h128 =
    Lifetime.Return tt self
      (<[a := _m128
                (leaves (MetroHash128_initialize seed) {| _m128 := m128 |})]>
         h128) /\
  Lifetime.update CCMetroHash128 CCMetroHash128_Update data self h128 =
    match MetroHash128_update data {| _m128 := m128 |} with
    | (Ok _, s) => Lifetime.Return tt self (<[a := _m128 s]> h128)
    | (Raise e, _) => Lifetime.Raised (Lifetime.Exc e) self h128
    end /\
  Lifetime.intdigest CCMetroHash128 Lifetime.digest128 self h128 =
    match MetroHash128_intdigest {| _m128 := m128 |} with
    | (Ok v, s) => Lifetime.Return v self (<[a := _m128 s]> h128)
    | (Raise e, _) => Lifetime.Raised (Lifetime.Exc e) self h128
    end.
Proof.
  intros H64 H128 self.
  unfold Lifetime.initialize, Lifetime.update, Lifetime.intdigest.
  split; [|split; [|split; [|split; [|split]]]].
  - unfold self. rewrite (through_m_allocated _ _ a m64 h64 H64). reflexivity.
  - unfold self, MetroHash64_update.
    destruct data; cbn; rewrite ?H64; reflexivity.
  - unfold self. rewrite (through_m_allocated _ _ a m64 h64 H64).
    unfold Lifetime.digest64, MetroHash64_intdigest. cbn [_m].
    destruct (CCMetroHash64_Finalize m64). reflexivity.
  - unfold self. rewrite (through_m_allocated _ _ a m128 h128 H128).
    reflexivity.
  - unfold self, MetroHash128_update.
    destruct data; cbn; rewrite ?H128; reflexivity.
  - unfold self. rewrite (through_m_allocated _ _ a m128 h128 H128).
    unfold Lifetime.digest128, MetroHash128_intdigest. cbn [_m128].
    destruct (CCMetroHash128_Finalize m128). reflexivity.
Qed.

Lemma methods_act_on_the_instance_witness :
  ({[ 2%positive := Primitive.construct 1 ]}
     : gmap positive Primitive.accumulator) !! 2%positive =
    Some (Primitive.construct 1) /\
  Lifetime.update (CCMetroHash64 (Metro := Primitive.sample))
    CCMetroHash64_Update (PyString [x61])
    {| Lifetime.ptr := Some 2%positive |}
    {[ 2%positive := Primitive.construct 1 ]} =
  Lifetime.Return tt {| Lifetime.ptr := Some 2%positive |}
    (<[ 2%positive := {| Primitive.acc_seed := 1;
                         Primitive.acc_input := [x61] |} ]>
       {[ 2%positive := Primitive.construct 1 ]}).
Proof.
  assert (H : ({[ 2%positive := Primitive.construct 1 ]}
                 : gmap positive Primitive.accumulator) !! 2%positive =
              Some (Primitive.construct 1)) by reflexivity.
  split; [exact H|].
  destruct (methods_act_on_the_instance (M := Primitive.sample) 2%positive
              (Primitive.construct 1)
              {[ 2%positive := Primitive.construct 1 ]}
              (Primitive.construct 1)
              {[ 2%positive := Primitive.construct 1 ]}
              None (PyString [x61]) H H) as (_ & Hup & _).
  etransitivity; [exact Hup|reflexivity].
Defined.


